(** * kaamiki.utils.logging: formatter, coloured console handler and Logger

    A shallow embedding of [kaamiki/utils/logging.py] together with the part
    of Python's [str] type and of the standard [logging] package that the
    module calls, followed by the properties of the rendering pipeline, of
    the rotation policy and of the construction of a [Logger].

    Python strings are lists of characters, [None]-able arguments are
    options, a call that can raise returns an option or a sum, and the
    objects a [Logger] creates live in an explicit [World] (object store,
    registries, files and console streams).  The model is the POSIX one:
    [os.sep] is ["/"] and [Path] is [PurePosixPath]. *)

From Stdlib Require Import ZArith NArith Ascii String List Lia Bool DecimalString
  DecimalZ.
From stdpp Require Import gmap strings list option.

Coercion list_ascii_of_string : string >-> list.
Abbreviation str := (list ascii).

Definition LF : ascii := "010"%char.
Definition ESC : ascii := "027"%char.

(** ** Python's [str] *)

Module Py.

(** Truth value of a string and of an optional string ([None] and the empty
    string are false). *)
Definition bool (s : str) : Datatypes.bool :=
  match s with [] => false | _ :: _ => true end.

Definition truthy (o : option str) : Datatypes.bool :=
  match o with Some s => bool s | None => false end.

Fixpoint eqb (s t : str) : Datatypes.bool :=
  match s, t with
  | [], [] => true
  | a :: s', b :: t' => Ascii.eqb a b && eqb s' t'
  | _, _ => false
  end.

(** [s.startswith(pre)] *)
Fixpoint startswith (s pre : str) {struct pre} : Datatypes.bool :=
  match pre, s with
  | [], _ => true
  | p :: pre', c :: s' => Ascii.eqb p c && startswith s' pre'
  | _ :: _, [] => false
  end.

(** [s.find(sub)]: index of the leftmost occurrence. *)
Fixpoint find (s sub : str) : option nat :=
  match s with
  | [] => if startswith [] sub then Some 0 else None
  | _ :: s' => if startswith s sub then Some 0 else S <$> find s' sub
  end.

(** [sub in s] *)
Definition contains (s sub : str) : Datatypes.bool :=
  match find s sub with Some _ => true | None => false end.

(** [s.rfind(c)] for a single character [c]. *)
Fixpoint rfind_char (s : str) (c : ascii) : option nat :=
  match s with
  | [] => None
  | a :: s' =>
      match rfind_char s' c with
      | Some i => Some (S i)
      | None => if Ascii.eqb a c then Some 0 else None
      end
  end.

(** [s.replace(old, new)] for a non-empty [old]: the leftmost occurrence
    is replaced and the search goes on behind it.  Every round consumes at
    least one character, so [length s] rounds are enough. *)
Fixpoint replace_from (fuel : nat) (s old new : str) : str :=
  match fuel with
  | 0 => s
  | S fuel' =>
      match find s old with
      | None => s
      | Some n =>
          take n s ++ new ++ replace_from fuel' (drop (n + length old) s) old new
      end
  end.

(** [s.replace(old, new)].  With an empty [old] Python puts [new] in front
    of every character and at the end. *)
Definition replace (s old new : str) : str :=
  match old with
  | [] => new ++ flat_map (fun c => c :: new) s
  | _ :: _ => replace_from (length s) s old new
  end.

(** [s.partition(sep)]; an empty separator raises [ValueError]. *)
Definition partition (s sep : str) : option (str * str * str) :=
  match sep with
  | [] => None
  | _ :: _ =>
      match find s sep with
      | Some n => Some (take n s, sep, drop (n + length sep) s)
      | None => Some (s, [], [])
      end
  end.

(** [s.split(c)] for a single character [c]. *)
Fixpoint split_char (s : str) (c : ascii) : list str :=
  match s with
  | [] => [[]]
  | a :: s' =>
      match split_char s' c with
      | [] => [[]]
      | w :: ws => if Ascii.eqb a c then [] :: w :: ws else (a :: w) :: ws
      end
  end.

(** [s.rjust(w)], [s.ljust(w)] and [s.zfill(w)]; the zeros go behind a
    leading sign. *)
Definition rjust (s : str) (w : nat) : str := repeat " "%char (w - length s) ++ s.
Definition ljust (s : str) (w : nat) : str := s ++ repeat " "%char (w - length s).
Definition zfill (s : str) (w : nat) : str :=
  match s with
  | c :: s' =>
      if Ascii.eqb c "-" || Ascii.eqb c "+"
      then c :: repeat "0"%char (w - length s) ++ s'
      else repeat "0"%char (w - length s) ++ s
  | [] => repeat "0"%char w
  end.

(** [str(n)] for an integer. *)
Definition dec (n : Z) : str := NilZero.string_of_int (Z.to_int n).

Definition is_digit (c : ascii) : Datatypes.bool :=
  (48 <=? nat_of_ascii c) && (nat_of_ascii c <=? 57).

Definition digit_val (c : ascii) : nat := nat_of_ascii c - 48.

(** [int(s)] for a string of decimal digits. *)
Definition parse_nat (s : str) : option nat :=
  match s with
  | [] => None
  | _ :: _ =>
      fold_left (fun acc c => n ← acc; if is_digit c then Some (10 * n + digit_val c) else None)
                s (Some 0)
  end.

(** [s.upper()] on ASCII letters. *)
Definition upper_char (c : ascii) : ascii :=
  let n := nat_of_ascii c in
  if (97 <=? n) && (n <=? 122) then ascii_of_nat (n - 32) else c.
Definition upper (s : str) : str := map upper_char s.

(** *** [template.format(args)]

    Replacement fields [{}], [{N}], [{:>W}] and [{N:>W}] and the escapes
    [{{] and [}}]; any other field is outside the fragment ([None]), and so
    are the templates Python rejects. *)
Inductive fstate :=
| FLit
| FOpen
| FField (acc : str)
| FClose.

Definition format_field (field : str) (auto : nat) (args : list str) : option (str * nat) :=
  let '(idx, spec) :=
    match find field ":" with
    | Some n => (take n field, drop (S n) field)
    | None => (field, [])
    end in
  '(i, auto') ← match idx with
                | [] => Some (auto, S auto)
                | _ :: _ => i ← parse_nat idx; Some (i, auto)
                end;
  a ← args !! i;
  match spec with
  | [] => Some (a, auto')
  | c :: ws => if Ascii.eqb c ">" then w ← parse_nat ws; Some (rjust a w, auto') else None
  end.

Fixpoint format_go (st : fstate) (auto : nat) (tpl : str) (args : list str) : option str :=
  match tpl with
  | [] => match st with FLit => Some [] | _ => None end
  | c :: tpl' =>
      match st with
      | FLit =>
          if Ascii.eqb c "{" then format_go FOpen auto tpl' args
          else if Ascii.eqb c "}" then format_go FClose auto tpl' args
          else (cons c) <$> format_go FLit auto tpl' args
      | FClose =>
          if Ascii.eqb c "}" then (cons c) <$> format_go FLit auto tpl' args else None
      | FOpen =>
          if Ascii.eqb c "{" then (cons c) <$> format_go FLit auto tpl' args
          else if Ascii.eqb c "}" then
            '(t, auto') ← format_field [] auto args;
            (app t) <$> format_go FLit auto' tpl' args
          else format_go (FField [c]) auto tpl' args
      | FField acc =>
          if Ascii.eqb c "}" then
            '(t, auto') ← format_field (rev acc) auto args;
            (app t) <$> format_go FLit auto' tpl' args
          else format_go (FField (c :: acc)) auto tpl' args
      end
  end.

Definition format (tpl : str) (args : list str) : option str :=
  format_go FLit 0 tpl args.

(** *** [template % mapping]

    Directives [%(key)s] and [%(key)d] with the flags [0] and [-] and a
    width, and the escape [%%], applied to a mapping of strings and
    integers.  [Some] is the text Python produces.  [None] stands for a
    Python exception (unknown key, [%d] of a string, a truncated
    directive) and also for the directives outside this fragment (a
    precision, the flags [#], [+] and the blank, the other conversions),
    which Python renders: a [None] is no proof that the code raises. *)
Inductive value :=
| VStr (s : str)
| VInt (n : Z).

Fixpoint lookup_key (d : list (str * value)) (k : str) : option value :=
  match d with
  | [] => None
  | (k', v) :: d' => if eqb k' k then Some v else lookup_key d' k
  end.

Definition pad (t : str) (zero minus : Datatypes.bool) (w : nat) : str :=
  if minus then ljust t w else if zero then zfill t w else rjust t w.

Definition convert (d : list (str * value)) (k : str) (zero minus : Datatypes.bool)
           (w : nat) (c : ascii) : option str :=
  v ← lookup_key d k;
  if Ascii.eqb c "s" then
    Some (pad (match v with VStr s => s | VInt n => dec n end) false minus w)
  else if Ascii.eqb c "d" then
    match v with
    | VInt n => Some (pad (dec n) zero minus w)
    | VStr _ => None
    end
  else None.

Inductive pstate :=
| PLit
| PPct
| PKey (k : str)
| PSpec (k : str) (zero minus : Datatypes.bool) (w : option nat).

(** One character of the template: the next state and the text put out. *)
Definition percent_step (st : pstate) (c : ascii) (d : list (str * value))
  : option (pstate * str) :=
  match st with
  | PLit =>
      if Ascii.eqb c "%" then Some (PPct, []) else Some (PLit, [c])
  | PPct =>
      if Ascii.eqb c "(" then Some (PKey [], [])
      else if Ascii.eqb c "%" then Some (PLit, [c])
      else None
  | PKey k =>
      if Ascii.eqb c ")" then Some (PSpec (rev k) false false None, [])
      else if Ascii.eqb c "(" then None
      else Some (PKey (c :: k), [])
  | PSpec k zero minus w =>
      if is_digit c then
        match w with
        | None =>
            if Ascii.eqb c "0" then Some (PSpec k true minus None, [])
            else Some (PSpec k zero minus (Some (digit_val c)), [])
        | Some n => Some (PSpec k zero minus (Some (10 * n + digit_val c)), [])
        end
      else if Ascii.eqb c "-" then
        match w with
        | None => Some (PSpec k zero true None, [])
        | Some _ => None
        end
      else
        t ← convert d k zero minus (default 0 w) c;
        Some (PLit, t)
  end.

Fixpoint percent_go (st : pstate) (tpl : str) (d : list (str * value)) : option str :=
  match tpl with
  | [] => match st with PLit => Some [] | _ => None end
  | c :: tpl' =>
      '(st', out) ← percent_step st c d;
      (app out) <$> percent_go st' tpl' d
  end.

(** The automaton over a piece of a template: the state it is left in and
    the text put out. *)
Fixpoint percent_steps (st : pstate) (tpl : str) (d : list (str * value))
  : option (pstate * str) :=
  match tpl with
  | [] => Some (st, [])
  | c :: tpl' =>
      '(st', out) ← percent_step st c d;
      '(st'', out') ← percent_steps st' tpl' d;
      Some (st'', out ++ out')
  end.

Definition percent (tpl : str) (d : list (str * value)) : option str :=
  percent_go PLit tpl d.

End Py.


(** ** The environment

    What the module reads from the interpreter and the operating system, and
    the two names it imports from the [kaamiki] package that are defined
    outside this file. *)
Record Env := {
  (** [time.strftime(fmt, time.localtime(t))] *)
  strftime : str -> Z -> str;
  (** [distutils.sysconfig.get_python_lib()] *)
  get_python_lib : str;
  (** [os.path.abspath(sys.modules["__main__"].__file__)]; [None] when the
      attribute is missing (an interactive session) *)
  main_file : option str;
  (** [os.path.expanduser(f"~/.kaamiki/{USER}/logs/")] *)
  default_path : str;
  (** [kaamiki.replace_chars] *)
  replace_chars : str -> str;
  (** the time-based handler's [shouldRollover] and [doRollover] of the
      standard library taken as one step on the files: [None] when no
      rollover is due *)
  timed_rollover : str -> gmap str str -> option (gmap str str);
  (** the bytes a text takes in a log file beyond one for each of its
      characters, under the encoding the file is written with (the
      [encoding] argument or the platform's): nothing for ASCII text in
      UTF-8 *)
  extra_bytes : str -> nat;
  (** what [Handler.handleError] prints behind its first line for a record
      with these attributes: the traceback of the exception that is being
      handled, the call stack, the message and the arguments of the record *)
  error_report : list (str * Py.value) -> str
}.

(** ** The standard [logging] package: records and formatters *)

Module logging.

Definition CRITICAL : Z := 50.
Definition ERROR : Z := 40.
Definition WARNING : Z := 30.
Definition INFO : Z := 20.
Definition DEBUG : Z := 10.
Definition NOTSET : Z := 0.

(** [sys.exc_info()] as far as formatting looks at it: the name of the
    exception's class, [str] of the exception, the line of the traceback
    ([None] for an exception without one) and the text
    [traceback.print_exception] prints for it, without the last newline. *)
Record ExcInfo := {
  exc_class_name : str;
  exc_value : str;
  tb_lineno : option Z;
  print_exception : str
}.

(** A [LogRecord].  [msg] is [str(record.msg)] and [getMessage] the result
    of [record.getMessage()], which is [msg] merged with the arguments of
    the call; [message] and [asctime] are set by formatting, [exc_text]
    caches the traceback; [extra] are the attributes a [LoggerAdapter]
    adds. *)
Record LogRecord := {
  name : str;
  levelno : Z;
  levelname : str;
  pathname : str;
  filename : str;
  module : str;
  lineno : Z;
  funcName : str;
  created : Z;
  msecs : Z;
  thread : Z;
  threadName : str;
  processName : str;
  process : Z;
  msg : str;
  getMessage : str;
  exc_info : option ExcInfo;
  exc_text : option str;
  stack_info : option str;
  message : option str;
  asctime : option str;
  extra : list (str * Py.value)
}.

Definition set_message (v : str) (r : LogRecord) : LogRecord :=
  {| name := name r; levelno := levelno r; levelname := levelname r;
     pathname := pathname r; filename := filename r; module := module r;
     lineno := lineno r; funcName := funcName r; created := created r;
     msecs := msecs r; thread := thread r; threadName := threadName r;
     processName := processName r; process := process r; msg := msg r;
     getMessage := getMessage r; exc_info := exc_info r; exc_text := exc_text r;
     stack_info := stack_info r; message := Some v; asctime := asctime r;
     extra := extra r |}.

Definition set_asctime (v : str) (r : LogRecord) : LogRecord :=
  {| name := name r; levelno := levelno r; levelname := levelname r;
     pathname := pathname r; filename := filename r; module := module r;
     lineno := lineno r; funcName := funcName r; created := created r;
     msecs := msecs r; thread := thread r; threadName := threadName r;
     processName := processName r; process := process r; msg := msg r;
     getMessage := getMessage r; exc_info := exc_info r; exc_text := exc_text r;
     stack_info := stack_info r; message := message r; asctime := Some v;
     extra := extra r |}.

Definition set_exc_text (v : str) (r : LogRecord) : LogRecord :=
  {| name := name r; levelno := levelno r; levelname := levelname r;
     pathname := pathname r; filename := filename r; module := module r;
     lineno := lineno r; funcName := funcName r; created := created r;
     msecs := msecs r; thread := thread r; threadName := threadName r;
     processName := processName r; process := process r; msg := msg r;
     getMessage := getMessage r; exc_info := exc_info r; exc_text := Some v;
     stack_info := stack_info r; message := message r; asctime := asctime r;
     extra := extra r |}.

Definition opt_entry (k : str) (o : option str) : list (str * Py.value) :=
  match o with Some v => [(k, Py.VStr v)] | None => [] end.

(** [record.__dict__], the operand of the [%] of a formatter: the
    attributes that hold a string or an integer. *)
Definition __dict__ (r : LogRecord) : list (str * Py.value) :=
  [ ("name" : str, Py.VStr (name r));
    ("msg" : str, Py.VStr (msg r));
    ("levelname" : str, Py.VStr (levelname r));
    ("levelno" : str, Py.VInt (levelno r));
    ("pathname" : str, Py.VStr (pathname r));
    ("filename" : str, Py.VStr (filename r));
    ("module" : str, Py.VStr (module r));
    ("lineno" : str, Py.VInt (lineno r));
    ("funcName" : str, Py.VStr (funcName r));
    ("created" : str, Py.VInt (created r));
    ("msecs" : str, Py.VInt (msecs r));
    ("thread" : str, Py.VInt (thread r));
    ("threadName" : str, Py.VStr (threadName r));
    ("processName" : str, Py.VStr (processName r));
    ("process" : str, Py.VInt (process r)) ]
  ++ opt_entry "message" (message r)
  ++ opt_entry "asctime" (asctime r)
  ++ extra r.

(** *** [PercentStyle.validate]

    A search for the pattern
    [%\(\w+\)[#0+ -]*(\*|\d+)?(\.(\*|\d+))?[diouxefgcrsa%]], letters of
    either case; the automaton below reads what follows an opening [%(]. *)
Inductive vstate :=
| VKey0
| VKey
| VFlags
| VWidth
| VStar
| VDot
| VPrec
| VPrecStar.

Definition is_word (c : ascii) : bool :=
  let n := nat_of_ascii c in
  Py.is_digit c || ((65 <=? n) && (n <=? 90)) || ((97 <=? n) && (n <=? 122)) || (n =? 95).

Definition is_flag (c : ascii) : bool :=
  existsb (Ascii.eqb c) ("#0+ -" : str).

Definition is_conversion (c : ascii) : bool :=
  existsb (Ascii.eqb c) ("diouxefgcrsaDIOUXEFGCRSA%" : str).

Fixpoint match_directive (st : vstate) (s : str) : bool :=
  match s with
  | [] => false
  | c :: s' =>
      match st with
      | VKey0 => is_word c && match_directive VKey s'
      | VKey =>
          if is_word c then match_directive VKey s'
          else Ascii.eqb c ")" && match_directive VFlags s'
      | VFlags =>
          if is_flag c then match_directive VFlags s'
          else if Py.is_digit c then match_directive VWidth s'
          else if Ascii.eqb c "*" then match_directive VStar s'
          else if Ascii.eqb c "." then match_directive VDot s'
          else is_conversion c
      | VWidth =>
          if Py.is_digit c then match_directive VWidth s'
          else if Ascii.eqb c "." then match_directive VDot s'
          else is_conversion c
      | VStar =>
          if Ascii.eqb c "." then match_directive VDot s' else is_conversion c
      | VDot =>
          if Py.is_digit c then match_directive VPrec s'
          else Ascii.eqb c "*" && match_directive VPrecStar s'
      | VPrec =>
          if Py.is_digit c then match_directive VPrec s' else is_conversion c
      | VPrecStar => is_conversion c
      end
  end.

Fixpoint validate (fmt : str) : bool :=
  match fmt with
  | [] => false
  | c :: fmt' =>
      (Ascii.eqb c "%" &&
       match fmt' with
       | p :: rest => Ascii.eqb p "(" && match_directive VKey0 rest
       | [] => false
       end)
      || validate fmt'
  end.

(** *** [logging.Formatter] *)
Record Formatter := {
  _fmt : str;
  datefmt : option str
}.

(** [Formatter(fmt, datefmt)]: the style is [%], an empty template stands
    for [%(message)s], and a template without a directive raises
    [ValueError] ([None]). *)
Definition Formatter__init__ (fmt : option str) (datefmt : option str) : option Formatter :=
  let fmt := if Py.truthy fmt then default [] fmt else ("%(message)s" : str) in
  if validate fmt then Some {| _fmt := fmt; datefmt := datefmt |} else None.

Definition usesTime (self : Formatter) : bool :=
  Py.contains (_fmt self) "%(asctime)".

Section Env.
Context (env : Env).

Definition formatTime (self : Formatter) (record : LogRecord) : str :=
  if Py.truthy (datefmt self) then strftime env (default [] (datefmt self)) (created record)
  else strftime env "%Y-%m-%d %H:%M:%S" (created record)
         ++ "," ++ Py.zfill (Py.dec (msecs record)) 3.

(** [Formatter.formatException] prints the traceback; the result is
    never empty. *)
Definition formatException (ei : ExcInfo) : str := print_exception ei.

Definition ends_with_newline (s : str) : bool :=
  Ascii.eqb (List.last s " "%char) LF.

Definition append_block (s : str) (block : option str) : str :=
  if Py.truthy block
  then (if ends_with_newline s then s else s ++ [LF]) ++ default [] block
  else s.

(** The head of [Formatter.format]: [record.message] and, for a
    template that uses the time, [record.asctime] are set. *)
Definition prepare (self : Formatter) (record : LogRecord) : LogRecord :=
  let record := set_message (getMessage record) record in
  if usesTime self then set_asctime (formatTime self record) record else record.

(** [Formatter.formatMessage] *)
Definition formatMessage (self : Formatter) (record : LogRecord) : option str :=
  Py.percent (_fmt self) (__dict__ record).

(** The traceback is formatted once and kept in [record.exc_text]. *)
Definition cache_exc_text (record : LogRecord) : LogRecord :=
  match exc_info record with
  | Some ei => if Py.truthy (exc_text record) then record
               else set_exc_text (formatException ei) record
  | None => record
  end.

(** [Formatter.format(record)]: the rendered text and the record with
    the attributes the call has set. *)
Definition Formatter_format (self : Formatter) (record : LogRecord)
  : option (str * LogRecord) :=
  let record := prepare self record in
  s ← formatMessage self record;
  let record := cache_exc_text record in
  let s := append_block s (exc_text record) in
  let s := append_block s (stack_info record) in
  Some (s, record).

(** The record object after the call [Formatter.format(record)], whether
    it has returned or [formatMessage] has raised: [message] and [asctime]
    are set in front of [formatMessage], [exc_text] behind it. *)
Definition Formatter_format_leaves (self : Formatter) (record : LogRecord) : LogRecord :=
  let record := prepare self record in
  match formatMessage self record with
  | Some _ => cache_exc_text record
  | None => record
  end.
End Env.

End logging.

(** ** [pathlib] and [os.path] on POSIX *)

(** [Path(s).name]: the last component, empty components and [.] dropped. *)
Definition Path_name (s : str) : str :=
  List.last (List.filter (fun c => negb (Py.eqb c [] || Py.eqb c "."))
                         (Py.split_char s "/")) [].

(** [Path(s).stem] *)
Definition Path_stem (s : str) : str :=
  let name := Path_name s in
  match Py.rfind_char name "." with
  | Some i => if (0 <? i) && (i <? length name - 1) then take i name else name
  | None => name
  end.

(** [os.path.join(a, b)] *)
Definition os_path_join (a b : str) : str :=
  if Py.startswith b "/" then b
  else if negb (Py.bool a) then b
  else if Ascii.eqb (List.last a " "%char) "/" then a ++ b
  else a ++ "/" ++ b.

(** ** kaamiki.utils.logging *)

Definition DEF : str := ESC :: "[0m".
Definition BLD : str := ESC :: "[1m".
Definition RED : str := ESC :: "[91m".
Definition GRN : str := ESC :: "[92m".
Definition YLW : str := ESC :: "[93m".
Definition CYN : str := ESC :: "[96m".

Definition _colors : gmap Z str :=
  <[logging.DEBUG := CYN]>
  (<[logging.INFO := GRN]>
   (<[logging.WARNING := YLW]>
    (<[logging.ERROR := RED]>
     (<[logging.CRITICAL := BLD ++ RED]> ∅)))).

(** *** [class _Formatter] *)

Module _Formatter.

Record t := {
  datefmt : str;
  user_fmt : bool;
  fmt : str;
  exc_fmt : str
}.

(** [_Formatter.__init__(self, datefmt, fmt)] *)
Definition __init__ (datefmt : option str) (fmt : option str) : t :=
  let datefmt := if negb (Py.truthy datefmt) then ("%b %d, %Y %H:%M:%S" : str)
                 else default [] datefmt in
  let '(user_fmt, fmt) :=
    if negb (Py.truthy fmt)
    then (false,
          ("%(asctime)s.%(msecs)03d %(levelname)8s %(process)07d "
           ++ "[{:>15}] {:>30}:%(lineno)04d : %(message)s")%string : str)
    else (true, default [] fmt) in
  {| datefmt := datefmt; user_fmt := user_fmt; fmt := fmt;
     exc_fmt := "{0}: {1} {2}on line {3}" |}.

Section Env.
Context (env : Env).

(** [_Formatter.relative_path(self, abspath)] *)
Definition relative_path (self : t) (abspath : str) : option str :=
  let sep := if Py.contains abspath "kaamiki" then ("kaamiki" : str)
             else get_python_lib env in
  '(_, _, tail) ← Py.partition abspath sep;
  Some (Path_stem (Py.replace (drop 1 tail) "/" ".")).

(** The first half of [_Formatter.format]: the standard formatter [log]
    the record is rendered with, built from the user's template as it
    is, or from the default template filled with the thread and the
    module name. *)
Definition make_formatter (self : t) (record : logging.LogRecord)
  : option logging.Formatter :=
  if user_fmt self
  then logging.Formatter__init__ (Some (fmt self)) (Some (datefmt self))
  else
    let thd := if Py.eqb (logging.threadName record) "MainThread"
               then ("main" : str) else logging.threadName record in
    module ← relative_path self (logging.pathname record);
    let module :=
      if 30 <? length module
      then take 27 module ++ (if Py.bool (drop 27 module) then ("..." : str) else [])
      else module in
    tpl ← Py.format (fmt self) [thd; module];
    logging.Formatter__init__ (Some tpl) (Some (datefmt self)).

(** The second half of [_Formatter.format], on the rendered text [log]:
    the branch under [if record.exc_text]. *)
Definition exception_summary (self : t) (log : str) (record : logging.LogRecord)
  : option str :=
  if Py.truthy (logging.exc_text record) then
    let func := logging.funcName record in
    let func := if negb (Py.eqb func "<module>") then "in " ++ func ++ "() " else [] in
    ei ← logging.exc_info record;
    line ← logging.tb_lineno ei;
    exc_msg ← Py.format (exc_fmt self)
                [logging.exc_class_name ei; logging.msg record; func; Py.dec line];
    let log := Py.replace (Py.replace log [LF] []) (logging.exc_value ei) exc_msg in
    '(log, _, _) ← Py.partition log "Traceback";
    Some log
  else Some log.

(** [_Formatter.format(self, record)]: the text, and the record as the
    standard formatter leaves it. *)
Definition format (self : t) (record : logging.LogRecord)
  : option (str * logging.LogRecord) :=
  log ← make_formatter self record;
  '(log, record) ← logging.Formatter_format env log record;
  log ← exception_summary self log record;
  Some (log, record).

(** The record object after the call [_Formatter.format(record)], returned
    or raised: the lines in front of [log.format(record)] do not touch the
    record, that call sets attributes of it, and the lines behind it only
    read it. *)
Definition format_leaves (self : t) (record : logging.LogRecord) : logging.LogRecord :=
  match make_formatter self record with
  | Some log => logging.Formatter_format_leaves env log record
  | None => record
  end.
End Env.

End _Formatter.

(** *** [class _StreamHandler]: the formatting methods *)

Module _StreamHandler.

(** [_StreamHandler.render(self, level, record)] *)
Definition render (level : Z) (record : logging.LogRecord) : str :=
  default DEF (_colors !! level) ++ logging.levelname record.

(** [_StreamHandler.format(self, record)]; [super_format] is the
    inherited [logging.StreamHandler.format(self, record)], which renders
    with the handler's formatter. *)
Definition format (super_format : logging.LogRecord -> option (str * logging.LogRecord))
           (record : logging.LogRecord) : option (str * logging.LogRecord) :=
  '(log, record') ← super_format record;
  let colored := render (logging.levelno record) record ++ DEF in
  Some (Py.replace log (logging.levelname record) colored, record').

End _StreamHandler.

(** ** Objects, registries and streams *)

Abbreviation ObjId := nat.

Inductive exn :=
| ValueError
| TypeError
| OSError.

Inductive Stream :=
| Stdout
| Stderr.

(** The handler classes the module instantiates, with the attributes their
    constructors store. *)
Inductive HandlerClass :=
| StreamHandler (stream : Stream)
| KaamikiStreamHandler
| FileHandler (baseFilename : str) (delay : bool)
| RotatingFileHandler (baseFilename : str) (maxBytes backupCount : Z) (delay : bool)
| TimedRotatingFileHandler (baseFilename : str) (when : str) (interval backupCount : Z)
                           (delay utc : bool) (atTime : option Z).

Record Handler := {
  h_class : HandlerClass;
  h_formatter : option ObjId;
  h_level : Z
}.

(** A logger of the standard library, kept in the manager's [loggerDict]
    under its name; the root logger is kept under [root]. *)
Record StdLogger := {
  l_level : Z;
  l_handlers : list ObjId;
  l_propagate : bool;
  l_disabled : bool
}.

Record World := {
  (** regular files, by path *)
  files : gmap str str;
  (** what has been written to [sys.stdout] and [sys.stderr] *)
  stdout : str;
  stderr : str;
  (** number of calls of a handler's [format] and of [doRollover] so far *)
  format_calls : nat;
  rollovers : nat;
  (** [Neo._instances], by class name *)
  _instances : gmap str ObjId;
  (** the [_Formatter] and handler objects *)
  formatters : gmap ObjId _Formatter.t;
  handlers : gmap ObjId Handler;
  (** [logging.Logger.manager]: [loggerDict] and [disable] *)
  loggerDict : gmap str StdLogger;
  disable : Z;
  next_id : ObjId
}.

Definition set_files (v : gmap str str) (w : World) : World :=
  {| files := v; stdout := stdout w; stderr := stderr w; format_calls := format_calls w;
     rollovers := rollovers w; _instances := _instances w; formatters := formatters w;
     handlers := handlers w; loggerDict := loggerDict w; disable := disable w;
     next_id := next_id w |}.

Definition set_stdout (v : str) (w : World) : World :=
  {| files := files w; stdout := v; stderr := stderr w; format_calls := format_calls w;
     rollovers := rollovers w; _instances := _instances w; formatters := formatters w;
     handlers := handlers w; loggerDict := loggerDict w; disable := disable w;
     next_id := next_id w |}.

Definition set_stderr (v : str) (w : World) : World :=
  {| files := files w; stdout := stdout w; stderr := v; format_calls := format_calls w;
     rollovers := rollovers w; _instances := _instances w; formatters := formatters w;
     handlers := handlers w; loggerDict := loggerDict w; disable := disable w;
     next_id := next_id w |}.

Definition set_format_calls (v : nat) (w : World) : World :=
  {| files := files w; stdout := stdout w; stderr := stderr w; format_calls := v;
     rollovers := rollovers w; _instances := _instances w; formatters := formatters w;
     handlers := handlers w; loggerDict := loggerDict w; disable := disable w;
     next_id := next_id w |}.

Definition set_rollovers (v : nat) (w : World) : World :=
  {| files := files w; stdout := stdout w; stderr := stderr w;
     format_calls := format_calls w; rollovers := v; _instances := _instances w;
     formatters := formatters w; handlers := handlers w; loggerDict := loggerDict w;
     disable := disable w; next_id := next_id w |}.

Definition set_instances (v : gmap str ObjId) (w : World) : World :=
  {| files := files w; stdout := stdout w; stderr := stderr w;
     format_calls := format_calls w; rollovers := rollovers w; _instances := v;
     formatters := formatters w; handlers := handlers w; loggerDict := loggerDict w;
     disable := disable w; next_id := next_id w |}.

Definition set_formatters (v : gmap ObjId _Formatter.t) (w : World) : World :=
  {| files := files w; stdout := stdout w; stderr := stderr w;
     format_calls := format_calls w; rollovers := rollovers w; _instances := _instances w;
     formatters := v; handlers := handlers w; loggerDict := loggerDict w;
     disable := disable w; next_id := next_id w |}.

Definition set_handlers (v : gmap ObjId Handler) (w : World) : World :=
  {| files := files w; stdout := stdout w; stderr := stderr w;
     format_calls := format_calls w; rollovers := rollovers w; _instances := _instances w;
     formatters := formatters w; handlers := v; loggerDict := loggerDict w;
     disable := disable w; next_id := next_id w |}.

Definition set_loggerDict (v : gmap str StdLogger) (w : World) : World :=
  {| files := files w; stdout := stdout w; stderr := stderr w;
     format_calls := format_calls w; rollovers := rollovers w; _instances := _instances w;
     formatters := formatters w; handlers := handlers w; loggerDict := v;
     disable := disable w; next_id := next_id w |}.

Definition set_next_id (v : ObjId) (w : World) : World :=
  {| files := files w; stdout := stdout w; stderr := stderr w;
     format_calls := format_calls w; rollovers := rollovers w; _instances := _instances w;
     formatters := formatters w; handlers := handlers w; loggerDict := loggerDict w;
     disable := disable w; next_id := v |}.

(** The interpreter after [import logging]: no file, nothing written, the
    root logger at [WARNING] without handlers. *)
Definition initial_world : World :=
  {| files := ∅; stdout := []; stderr := []; format_calls := 0; rollovers := 0;
     _instances := ∅; formatters := ∅; handlers := ∅;
     loggerDict := {[ ("root" : str) :=
                        {| l_level := logging.WARNING; l_handlers := [];
                           l_propagate := true; l_disabled := false |} ]};
     disable := 0; next_id := 0 |}.

(** A new object identity. *)
Definition fresh (w : World) : ObjId * World :=
  (next_id w, set_next_id (S (next_id w)) w).

(** Modelled from the spec: the metaclass [Neo], which the module imports
    from the [kaamiki] package and which is defined outside this file.  The
    specification (design notes, section 9) speaks of the source's singleton
    and registry behaviour with initialisation on first use, and the
    docstring of [_StreamHandler] of its Singleton design pattern: calling a
    class whose metaclass is [Neo] builds an instance on the first call,
    records it in [Neo._instances] under the class, and returns the recorded
    instance, without running [__init__] again, on every later call. *)
Definition Neo__call__ (cls : str) (construct : World -> ObjId * World) (w : World)
  : ObjId * World :=
  match _instances w !! cls with
  | Some o => (o, w)
  | None =>
      let '(o, w') := construct w in
      (o, set_instances (<[cls := o]> (_instances w')) w')
  end.

(** ** The standard [logging] package: handlers and loggers *)

Module handlers.

Inductive Sink :=
| ToStream (s : Stream)
| ToFile (path : str).

Definition write (k : Sink) (text : str) (w : World) : World :=
  match k with
  | ToStream Stdout => set_stdout (stdout w ++ text) w
  | ToStream Stderr => set_stderr (stderr w ++ text) w
  | ToFile path => set_files (<[path := default [] (files w !! path) ++ text]> (files w)) w
  end.

(** [FileHandler._open]: opening for appending creates a missing file.
    A stream is identified with the path it was opened on. *)
Definition _open (path : str) (w : World) : World :=
  match files w !! path with
  | Some _ => w
  | None => set_files (<[path := []]> (files w)) w
  end.

Section Env.
Context (env : Env).

(** [Handler.handleError(record)], with [logging.raiseExceptions] at its
    default and [sys.stderr] present: the line [--- Logging error ---] on
    [sys.stderr] and, behind it, the report on the exception and on the
    record. *)
Definition handleError (record : logging.LogRecord) (w : World) : World :=
  set_stderr (stderr w ++ "--- Logging error ---" ++ [LF]
              ++ error_report env (logging.__dict__ record)) w.

(** [stream.tell()] at the end of a file opened for appending: the size of
    the file in bytes, one for each character and what the encoding adds. *)
Definition tell (content : str) : nat := length content + extra_bytes env content.

(** [logging.Handler.format]: the handler's formatter, or the default
    formatter [logging.Formatter()] of the package. *)
Definition Handler_format (h : Handler) (record : logging.LogRecord) (w : World)
  : option (str * logging.LogRecord) :=
  match h_formatter h with
  | Some f => fmtr ← formatters w !! f; _Formatter.format env fmtr record
  | None => fmtr ← logging.Formatter__init__ None None;
            logging.Formatter_format env fmtr record
  end.

(** The record object after [logging.Handler.format], returned or raised. *)
Definition Handler_leaves (h : Handler) (record : logging.LogRecord) (w : World)
  : logging.LogRecord :=
  match h_formatter h with
  | Some f =>
      match formatters w !! f with
      | Some fmtr => _Formatter.format_leaves env fmtr record
      | None => record
      end
  | None =>
      match logging.Formatter__init__ None None with
      | Some fmtr => logging.Formatter_format_leaves env fmtr record
      | None => record
      end
  end.

(** [self.format(record)] on a handler, by its class. *)
Definition format (h : Handler) (record : logging.LogRecord) (w : World)
  : option (str * logging.LogRecord) * World :=
  let w := set_format_calls (S (format_calls w)) w in
  (match h_class h with
   | KaamikiStreamHandler =>
       _StreamHandler.format (fun r => Handler_format h r w) record
   | _ => Handler_format h record w
   end, w).

(** [StreamHandler.emit]: format, write the line, and report instead
    when formatting raises.  The record is one object: what a formatting
    that raises has set on it by then stays on it. *)
Definition StreamHandler_emit (h : Handler) (k : Sink) (record : logging.LogRecord)
           (w : World) : logging.LogRecord * World :=
  let '(r, w) := format h record w in
  match r with
  | Some (msg, record') => (record', write k (msg ++ [LF]) w)
  | None =>
      let record := Handler_leaves h record w in
      (record, handleError record w)
  end.

(** [FileHandler.emit] *)
Definition FileHandler_emit (h : Handler) (base : str) (record : logging.LogRecord)
           (w : World) : logging.LogRecord * World :=
  StreamHandler_emit h (ToFile base) record (_open base w).

(** [RotatingFileHandler.shouldRollover]: the position at the end of the
    stream, in bytes, and the length of the line, in characters, against
    [maxBytes]; [None] when formatting raises. *)
Definition shouldRollover (h : Handler) (base : str) (maxBytes : Z)
           (record : logging.LogRecord) (w : World)
  : option bool * logging.LogRecord * World :=
  let w := _open base w in
  if (0 <? maxBytes)%Z then
    let '(r, w) := format h record w in
    match r with
    | Some (msg, record') =>
        let pos := tell (default [] (files w !! base)) in
        (Some (maxBytes <=? Z.of_nat (pos + length (msg ++ [LF])))%Z, record', w)
    | None => (None, Handler_leaves h record w, w)
    end
  else (Some false, record, w).

(** [os.rename(src, dst)] behind [if os.path.exists(dst): os.remove(dst)],
    both under [if os.path.exists(src)]. *)
Definition move (src dst : str) (fs : gmap str str) : gmap str str :=
  match fs !! src with
  | Some c => <[dst := c]> (delete src (delete dst fs))
  | None => fs
  end.

(** [for i in range(backupCount - 1, 0, -1)] of [doRollover], from [i]
    downwards. *)
Fixpoint shift_backups (base : str) (i : nat) (fs : gmap str str) : gmap str str :=
  match i with
  | 0 => fs
  | S i' =>
      let sfn := base ++ "." ++ Py.dec (Z.of_nat i) in
      let dfn := base ++ "." ++ Py.dec (Z.of_nat i + 1)%Z in
      shift_backups base i' (move sfn dfn fs)
  end.

(** [RotatingFileHandler.doRollover] *)
Definition doRollover (base : str) (backupCount : Z) (delay : bool) (w : World) : World :=
  let w := set_rollovers (S (rollovers w)) w in
  let fs := files w in
  let fs :=
    if (0 <? backupCount)%Z then
      let fs := shift_backups base (Z.to_nat (backupCount - 1)%Z) fs in
      let dfn := base ++ ".1" in
      let fs := delete dfn fs in
      match fs !! base with
      | Some c => <[dfn := c]> (delete base fs)
      | None => fs
      end
    else fs in
  let w := set_files fs w in
  if delay then w else _open base w.

(** [BaseRotatingHandler.emit] of a [RotatingFileHandler] *)
Definition RotatingFileHandler_emit (h : Handler) (base : str) (maxBytes backupCount : Z)
           (delay : bool) (record : logging.LogRecord) (w : World)
  : logging.LogRecord * World :=
  match shouldRollover h base maxBytes record w with
  | (Some b, record, w) =>
      let w := if b then doRollover base backupCount delay w else w in
      FileHandler_emit h base record w
  | (None, record, w) => (record, handleError record w)
  end.

(** [BaseRotatingHandler.emit] of a [TimedRotatingFileHandler] *)
Definition TimedRotatingFileHandler_emit (h : Handler) (base : str)
           (record : logging.LogRecord) (w : World) : logging.LogRecord * World :=
  let w := match timed_rollover env base (files w) with
           | Some fs => set_rollovers (S (rollovers w)) (set_files fs w)
           | None => w
           end in
  FileHandler_emit h base record w.

(** [Handler.handle]: the [emit] of the handler's class. *)
Definition handle (h : Handler) (record : logging.LogRecord) (w : World)
  : logging.LogRecord * World :=
  match h_class h with
  | StreamHandler s => StreamHandler_emit h (ToStream s) record w
  | KaamikiStreamHandler => StreamHandler_emit h (ToStream Stdout) record w
  | FileHandler base _ => FileHandler_emit h base record w
  | RotatingFileHandler base maxBytes backupCount delay =>
      RotatingFileHandler_emit h base maxBytes backupCount delay record w
  | TimedRotatingFileHandler base _ _ _ _ _ _ =>
      TimedRotatingFileHandler_emit h base record w
  end.

(** The loop over [c.handlers] in [callHandlers]. *)
Fixpoint call_each (hs : list ObjId) (record : logging.LogRecord) (w : World)
  : logging.LogRecord * World :=
  match hs with
  | [] => (record, w)
  | o :: hs' =>
      match handlers w !! o with
      | Some h =>
          let '(record, w) :=
            if (h_level h <=? logging.levelno record)%Z then handle h record w
            else (record, w) in
          call_each hs' record w
      | None => call_each hs' record w
      end
  end.
End Env.

(** *** Loggers *)

Fixpoint dot_positions (s : str) (i : nat) : list nat :=
  match s with
  | [] => []
  | c :: s' => (if Ascii.eqb c "." then [i] else []) ++ dot_positions s' (S i)
  end.

(** The logger [name] and the names above it in the hierarchy, nearest
    first, the root logger last. *)
Definition lineage (name : str) : list str :=
  if Py.eqb name "root" then [name]
  else name :: rev (map (fun i => take i name) (dot_positions name 0)) ++ [("root" : str)].

(** The handlers [callHandlers] visits, walking up while [propagate]
    holds; names without a logger are skipped. *)
Fixpoint chain_handlers (names : list str) (w : World) : list ObjId :=
  match names with
  | [] => []
  | n :: rest =>
      match loggerDict w !! n with
      | Some l => l_handlers l ++ (if l_propagate l then chain_handlers rest w else [])
      | None => chain_handlers rest w
      end
  end.

Fixpoint first_level (names : list str) (w : World) : Z :=
  match names with
  | [] => logging.NOTSET
  | n :: rest =>
      match loggerDict w !! n with
      | Some l => if (l_level l =? 0)%Z then first_level rest w else l_level l
      | None => first_level rest w
      end
  end.

(** [Logger.getEffectiveLevel] *)
Definition getEffectiveLevel (name : str) (w : World) : Z :=
  first_level (lineage name) w.

(** [Logger.isEnabledFor] *)
Definition isEnabledFor (name : str) (level : Z) (w : World) : bool :=
  match loggerDict w !! name with
  | Some l =>
      if l_disabled l then false
      else if (level <=? disable w)%Z then false
      else (getEffectiveLevel name w <=? level)%Z
  | None => false
  end.

(** [logging.lastResort], the handler of a logger without handlers. *)
Definition lastResort : Handler :=
  {| h_class := StreamHandler Stderr; h_formatter := None; h_level := logging.WARNING |}.

(** [logging.getLogger(name)]: the root logger for [None], the registered
    logger of that name, or a new one. *)
Definition getLogger (name : option str) (w : World) : str * World :=
  match name with
  | None => ("root" : str, w)
  | Some n =>
      match loggerDict w !! n with
      | Some _ => (n, w)
      | None =>
          (n, set_loggerDict
                (<[n := {| l_level := logging.NOTSET; l_handlers := [];
                           l_propagate := true; l_disabled := false |}]> (loggerDict w)) w)
      end
  end.

Definition _levelToName : gmap Z str :=
  <[logging.CRITICAL := ("CRITICAL" : str)]>
  (<[logging.ERROR := ("ERROR" : str)]>
   (<[logging.WARNING := ("WARNING" : str)]>
    (<[logging.INFO := ("INFO" : str)]>
     (<[logging.DEBUG := ("DEBUG" : str)]>
      (<[logging.NOTSET := ("NOTSET" : str)]> ∅))))).

Definition _nameToLevel : gmap str Z :=
  <[("CRITICAL" : str) := logging.CRITICAL]>
  (<[("FATAL" : str) := logging.CRITICAL]>
   (<[("ERROR" : str) := logging.ERROR]>
    (<[("WARN" : str) := logging.WARNING]>
     (<[("WARNING" : str) := logging.WARNING]>
      (<[("INFO" : str) := logging.INFO]>
       (<[("DEBUG" : str) := logging.DEBUG]>
        (<[("NOTSET" : str) := logging.NOTSET]> ∅))))))).

(** [logging.getLevelName(level)] for an integer or a string. *)
Definition getLevelName (level : Z + str) : Z + str :=
  match level with
  | inl n =>
      match _levelToName !! n with
      | Some s => inr s
      | None => inr ("Level " ++ Py.dec n)
      end
  | inr s =>
      match _nameToLevel !! s with
      | Some n => inl n
      | None => inr ("Level " ++ s)
      end
  end.

(** [logging._checkLevel] *)
Definition _checkLevel (level : Z + str) : exn + Z :=
  match level with
  | inl n => inr n
  | inr s =>
      match _nameToLevel !! s with
      | Some n => inr n
      | None => inl ValueError
      end
  end.

(** [Logger.setLevel] *)
Definition setLevel (name : str) (level : Z + str) (w : World) : exn + World :=
  match _checkLevel level with
  | inl e => inl e
  | inr n =>
      inr (set_loggerDict
             (alter (fun l => {| l_level := n; l_handlers := l_handlers l;
                                 l_propagate := l_propagate l;
                                 l_disabled := l_disabled l |}) name (loggerDict w)) w)
  end.

(** [Logger.addHandler]: a handler is added once. *)
Definition addHandler (name : str) (hdlr : ObjId) (w : World) : World :=
  set_loggerDict
    (alter (fun l => {| l_level := l_level l;
                        l_handlers := if existsb (Nat.eqb hdlr) (l_handlers l)
                                      then l_handlers l else l_handlers l ++ [hdlr];
                        l_propagate := l_propagate l;
                        l_disabled := l_disabled l |}) name (loggerDict w)) w.

(** [Handler.setFormatter] *)
Definition setFormatter (hdlr fmtr : ObjId) (w : World) : World :=
  set_handlers
    (alter (fun h => {| h_class := h_class h; h_formatter := Some fmtr;
                        h_level := h_level h |}) hdlr (handlers w)) w.

Section Env.
Context (env : Env).

(** [Logger.callHandlers] *)
Definition callHandlers (name : str) (record : logging.LogRecord) (w : World) : World :=
  match chain_handlers (lineage name) w with
  | [] =>
      if (h_level lastResort <=? logging.levelno record)%Z
      then snd (handle env lastResort record w) else w
  | hs => snd (call_each env hs record w)
  end.

(** [LoggerAdapter.log] and the [Logger.log] and [Logger.handle] behind
    it, for the record the call creates. *)
Definition LoggerAdapter_log (name : str) (record : logging.LogRecord) (w : World)
  : World :=
  if isEnabledFor name (logging.levelno record) w
  then callHandlers name record w
  else w.
End Env.

(** [TimedRotatingFileHandler.__init__] accepts these values of [when]. *)
Definition valid_when (when : str) : bool :=
  let when := Py.upper when in
  Py.eqb when "S" || Py.eqb when "M" || Py.eqb when "H" || Py.eqb when "D"
  || Py.eqb when "MIDNIGHT"
  || match when with
     | [w; d] => Ascii.eqb w "W" && (48 <=? nat_of_ascii d) && (nat_of_ascii d <=? 54)
     | _ => false
     end.

End handlers.

(** *** [class Logger] *)

Module Logger.

(** The arguments of the constructor. *)
Module Args.
Record t := {
  fmt : option str;
  datefmt : option str;
  level : option (Z + str);
  name : option str;
  path : option str;
  root : option str;
  colored : bool;
  extra : list (str * Py.value);
  rotate : bool;
  rotate_by : str;
  maxBytes : Z;
  when : str;
  interval : Z;
  utc : bool;
  atTime : option Z;
  backupCount : Z;
  encoding : option str;
  delay : bool
}.

Definition defaults : t :=
  {| fmt := None; datefmt := None; level := None; name := None; path := None;
     root := None; colored := true; extra := []; rotate := true;
     rotate_by := "size"; maxBytes := 1000000; when := "h"; interval := 1;
     utc := false; atTime := None; backupCount := 5; encoding := None;
     delay := false |}.
End Args.

(** The attributes of an instance: the arguments as they were passed, and
    what the constructor derives from them. *)
Record t := {
  args : Args.t;
  level : Z + str;
  formatter : ObjId;
  stream : ObjId;
  py : str;
  name : str;
  path : str;
  _file : str;
  file : ObjId;
  logger : str
}.

Definition new_formatter (datefmt fmt : option str) (w : World) : ObjId * World :=
  let '(o, w) := fresh w in
  (o, set_formatters (<[o := _Formatter.__init__ datefmt fmt]> (formatters w)) w).

Definition new_handler (c : HandlerClass) (w : World) : ObjId * World :=
  let '(o, w) := fresh w in
  (o, set_handlers
        (<[o := {| h_class := c; h_formatter := None; h_level := logging.NOTSET |}]>
           (handlers w)) w).

Definition level_truthy (level : option (Z + str)) : bool :=
  match level with
  | Some (inl n) => negb (n =? 0)%Z
  | Some (inr s) => Py.bool s
  | None => false
  end.

(** [self.level]: [logging.getLevelName(level if level else logging.DEBUG)] *)
Definition level_of (a : Args.t) : Z + str :=
  handlers.getLevelName
    (if level_truthy (Args.level a) then default (inl logging.DEBUG) (Args.level a)
     else inl logging.DEBUG).

Section Env.
Context (env : Env).

(** The block under [if self.rotate]: the class of [self.file] with the
    arguments it is built with, or the [ValueError] of the time-based
    handler for a value of [when] it does not know. *)
Definition file_class (a : Args.t) (_file : str) : exn + HandlerClass :=
  if Args.rotate a then
    if Py.eqb (Args.rotate_by a) "time" then
      if handlers.valid_when (Args.when a)
      then inr (TimedRotatingFileHandler _file (Args.when a) (Args.interval a)
                  (Args.backupCount a) (Args.delay a) (Args.utc a) (Args.atTime a))
      else inl ValueError
    else
      inr (RotatingFileHandler _file (Args.maxBytes a) (Args.backupCount a)
             (Args.delay a))
  else inr (FileHandler _file (Args.delay a)).

(** [Logger.__init__]; the directory of the log file is taken to exist,
    and a file handler opens its file unless [delay] is set. *)
Definition __init__ (a : Args.t) (w : World) : exn + (t * World) :=
  let level := level_of a in
  let '(formatter, w) :=
    Neo__call__ "_Formatter" (new_formatter (Args.datefmt a) (Args.fmt a)) w in
  let '(stream, w) :=
    if Args.colored a
    then Neo__call__ "_StreamHandler" (new_handler KaamikiStreamHandler) w
    else new_handler (StreamHandler Stderr) w in
  let w := handlers.setFormatter stream formatter w in
  let py := default ("terminal.py" : str) (main_file env) in
  let name := replace_chars env (if Py.truthy (Args.name a) then default [] (Args.name a)
                                 else Path_stem py) in
  let path := if Py.truthy (Args.path a) then default [] (Args.path a)
              else default_path env in
  let _file := os_path_join path (name ++ ".log") in
  match file_class a _file with
  | inl e => inl e
  | inr c =>
      let '(file, w) :=
        new_handler c (if Args.delay a then w else handlers._open _file w) in
      let w := handlers.setFormatter file formatter w in
      let '(logger, w) :=
        handlers.getLogger (if Py.truthy (Args.root a) then Args.root a else None) w in
      match handlers.setLevel logger level w with
      | inl e => inl e
      | inr w =>
          let w := handlers.addHandler logger file w in
          let w := handlers.addHandler logger stream w in
          inr ({| args := a; level := level; formatter := formatter; stream := stream;
                  py := py; name := name; path := path; _file := _file; file := file;
                  logger := logger |}, w)
      end
  end.

(** [Logger.log]: the adapter over [self.logger]; logging a record
    through it. *)
Definition log (self : t) (record : logging.LogRecord) (w : World) : World :=
  handlers.LoggerAdapter_log env (logger self) record w.
End Env.

(** [f"{self.level}"]: a number in decimal, a string as it is. *)
Definition level_str (level : Z + str) : str :=
  match level with
  | inl n => Py.dec n
  | inr s => s
  end.

(** [Logger.__repr__]; the name of the root logger is [root]. *)
Definition __repr__ (self : t) : str :=
  "<KaamikiLogger: " ++ logger self ++ " - [" ++ level_str (level self) ++ "] - "
  ++ _file self ++ ">".

End Logger.

(** ** The vocabulary of the properties *)

(** The one-line exception summary of the specification,
    [<ErrorKind>: <message> [in <functionName>() ]on line <lineNumber>],
    without the function clause at module scope. *)
Definition summary_clause (kind msg func : str) (line : Z) : str :=
  kind ++ ": " ++ msg ++ " "
  ++ (if Py.eqb func "<module>" then [] else "in " ++ func ++ "() ")
  ++ "on line " ++ Py.dec line.

(** The thread and the module column of the specification: [main] for the
    main thread, and at most 30 characters of the module name, the first 27
    and an ellipsis when it is longer. *)
Definition thread_field (record : logging.LogRecord) : str :=
  if Py.eqb (logging.threadName record) "MainThread" then "main"
  else logging.threadName record.

Definition module_field (m : str) : str :=
  if 30 <? length m then take 27 m ++ "..." else m.

(** The file [base] has only grown from [w] to [w'], no other file has
    changed and no rollover has taken place. *)
Definition appended_only (base : str) (w w' : World) : Prop :=
  rollovers w' = rollovers w /\
  (forall p, p <> base -> files w' !! p = files w !! p) /\
  exists appended, default [] (files w' !! base) = default [] (files w !! base) ++ appended.

(** A sequence of records emitted by one size-based handler. *)
Definition emit_all (env : Env) (h : Handler) (base : str) (maxBytes backupCount : Z)
           (delay : bool) (records : list logging.LogRecord) (w : World) : World :=
  fold_left
    (fun w r => snd (handlers.RotatingFileHandler_emit env h base maxBytes backupCount delay r w))
    records w.

Definition with_level (L : Z) (l : StdLogger) : StdLogger :=
  {| l_level := L; l_handlers := l_handlers l; l_propagate := l_propagate l;
     l_disabled := l_disabled l |}.

(** What the properties use of a finished [Logger.__init__ env a w], which
    returned [self] and left the world [w']. *)
Record constructed (a : Logger.Args.t) (w : World) (self : Logger.t) (w' : World)
  : Prop := {
  c_formatter : _instances w' !! ("_Formatter" : str) = Some (Logger.formatter self);
  c_stream : Logger.Args.colored a = true ->
             _instances w' !! ("_StreamHandler" : str) = Some (Logger.stream self);
  c_stream_fresh : Logger.Args.colored a = false ->
                   next_id w <= Logger.stream self < next_id w';
  c_file_fresh : next_id w <= Logger.file self < next_id w';
  c_file : exists c h,
      Logger.file_class a (Logger._file self) = inr c /\
      handlers w' !! Logger.file self = Some h /\ h_class h = c /\
      h_formatter h = Some (Logger.formatter self);
  c_level : exists L,
      handlers._checkLevel (Logger.level self) = inr L /\
      forall l, loggerDict w' !! Logger.logger self = Some l -> l_level l = L;
  c_disable : disable w' = disable w;
  c_formatter_reused : forall o, _instances w !! ("_Formatter" : str) = Some o ->
                                 Logger.formatter self = o;
  c_stream_reused : Logger.Args.colored a = true ->
                    forall o, _instances w !! ("_StreamHandler" : str) = Some o ->
                              Logger.stream self = o;
  c_next_id : next_id w <= next_id w';
  c_formatters : is_Some (_instances w !! ("_Formatter" : str)) -> formatters w' = formatters w
}.

(** ** A concrete environment, records and arguments *)

Definition posix_env : Env :=
  {| strftime := fun _ _ => "Jan 01, 2020 10:00:00" : str;
     get_python_lib := "/usr/lib/python3/dist-packages";
     main_file := Some ("/home/user/app/run.py" : str);
     default_path := "/home/user/.kaamiki/user/logs/";
     replace_chars := fun s => s;
     timed_rollover := fun _ _ => None;
     extra_bytes := fun s => length (filter (fun c => 128 <=? nat_of_ascii c) s);
     error_report := fun _ => "Traceback (most recent call last):" ++ [LF] |}.

Definition make_record (levelno : Z) (levelname pathname funcName threadName message : str)
           (exc_info : option logging.ExcInfo) : logging.LogRecord :=
  {| logging.name := "root"; logging.levelno := levelno; logging.levelname := levelname;
     logging.pathname := pathname; logging.filename := Path_name pathname;
     logging.module := Path_stem pathname; logging.lineno := 12;
     logging.funcName := funcName; logging.created := 1577872800; logging.msecs := 7;
     logging.thread := 1; logging.threadName := threadName;
     logging.processName := "MainProcess"; logging.process := 4242;
     logging.msg := message; logging.getMessage := message;
     logging.exc_info := exc_info; logging.exc_text := None; logging.stack_info := None;
     logging.message := None; logging.asctime := None; logging.extra := [] |}.

Definition source_path : str := "/home/user/kaamiki/kaamiki/utils/logging.py".
Definition long_path : str := "/opt/kaamiki/pipeline/stage_seven_threshold_normaliser.py".
Definition percent_path : str := "/opt/kaamiki/pipeline/stage_50%%_threshold_normaliser.py".

(** A [ValueError] raised in [load], on line 7, with its traceback. *)
Definition value_error (text : str) : logging.ExcInfo :=
  {| logging.exc_class_name := "ValueError"; logging.exc_value := text;
     logging.tb_lineno := Some 7%Z;
     logging.print_exception :=
       "Traceback (most recent call last):" ++ [LF]
       ++ "  File run.py, line 7, in load" ++ [LF]
       ++ "    parse(path)" ++ [LF]
       ++ "ValueError: " ++ text |}.

Definition default_formatter : _Formatter.t := _Formatter.__init__ None None.

(** The columns in front of the message of [error_record] and of the
    records below that share its level, thread and source file. *)
Definition error_header : str :=
  "Jan 01, 2020 10:00:00.007    ERROR 0004242 [           main]          kaamiki.utils.logging:0012 : ".

Definition error_record : logging.LogRecord :=
  make_record 40 "ERROR" source_path "load" "MainThread" "disk ERROR" None.
Definition debug_record : logging.LogRecord :=
  make_record 10 "DEBUG" source_path "load" "MainThread" "cache warm" None.
Definition failed_record : logging.LogRecord :=
  make_record 40 "ERROR" source_path "load" "MainThread" "failed to open"
              (Some (value_error "bad header")).
Definition exception_record : logging.LogRecord :=
  make_record 40 "ERROR" source_path "load" "MainThread" "bad header"
              (Some (value_error "bad header")).
Definition percent_module_record : logging.LogRecord :=
  make_record 20 "INFO" percent_path "run" "MainThread" "started" None.
Definition percent_thread_record : logging.LogRecord :=
  make_record 20 "INFO" source_path "run" "load-50%%" "started" None.

Definition make_args (fmt : option str) (level : option (Z + str)) (colored : bool)
           (rotate_by : str) (maxBytes : Z) : Logger.Args.t :=
  {| Logger.Args.fmt := fmt; Logger.Args.datefmt := None; Logger.Args.level := level;
     Logger.Args.name := None; Logger.Args.path := None; Logger.Args.root := None;
     Logger.Args.colored := colored; Logger.Args.extra := []; Logger.Args.rotate := true;
     Logger.Args.rotate_by := rotate_by; Logger.Args.maxBytes := maxBytes;
     Logger.Args.when := "h"; Logger.Args.interval := 1; Logger.Args.utc := false;
     Logger.Args.atTime := None; Logger.Args.backupCount := 5;
     Logger.Args.encoding := None; Logger.Args.delay := false |}.

Definition error_args : Logger.Args.t :=
  make_args None (Some (inr ("ERROR" : str))) true "size" 1000000.
Definition small_args : Logger.Args.t := make_args None None true "size" 64.
Definition unlimited_args : Logger.Args.t := make_args None None true "size" 0.

(** A script outside the package and outside the library directory. *)
Definition script_path : str := "/home/user/app/run.py".

(** A [ValueError] that was never raised: it has no traceback. *)
Definition unraised_error : logging.ExcInfo :=
  {| logging.exc_class_name := "ValueError"; logging.exc_value := "bad header";
     logging.tb_lineno := None;
     logging.print_exception := "ValueError: bad header" |}.

Definition unraised_record : logging.LogRecord :=
  make_record 40 "ERROR" source_path "load" "MainThread" "bad header"
              (Some unraised_error).
Definition notice_record : logging.LogRecord :=
  make_record 25 "NOTICE" source_path "load" "MainThread" "cache warm" None.

Definition info_args : Logger.Args.t :=
  make_args None (Some (inl 20%Z)) true "size" 1000000.
Definition plain_args : Logger.Args.t := make_args None None false "size" 1000000.


(** A world with a size-based file handler and the coloured console
    handler, which share the default formatter, and a log file with one
    line. *)
Definition sample_file : str := "/logs/app.log".

Definition sample_file_handler (maxBytes : Z) : Handler :=
  {| h_class := RotatingFileHandler sample_file maxBytes 5 false;
     h_formatter := Some 0; h_level := logging.NOTSET |}.

Definition sample_stream_handler : Handler :=
  {| h_class := KaamikiStreamHandler; h_formatter := Some 0; h_level := logging.NOTSET |}.

Definition sample_world (maxBytes : Z) : World :=
  set_next_id 3
    (set_handlers (<[1 := sample_file_handler maxBytes]> (<[2 := sample_stream_handler]> ∅))
       (set_formatters (<[0 := default_formatter]> ∅)
          (set_files (<[sample_file := "started" ++ [LF]]> ∅) initial_world))).

(** The same with a log file of 40 characters that take two bytes each in
    UTF-8, and a limit of 171 bytes. *)
Definition two_byte_world : World :=
  set_files (<[sample_file := repeat "233"%char 40]> ∅) (sample_world 171).

(** * Properties *)

(** ** Strings *)

Lemma ascii_eqb_true a b : Ascii.eqb a b = true <-> a = b.
Proof. apply Ascii.eqb_eq. Qed.

Lemma startswith_nil s : Py.startswith s [] = true.
Proof. by destruct s. Qed.

Lemma startswith_spec s p : Py.startswith s p = true <-> exists t, s = p ++ t.
Proof.
  revert s. induction p as [|a p IH]; intros s; simpl.
  - split; [intros _; by exists s | done].
  - destruct s as [|c s]; simpl.
    + split; [done | intros [t Ht]; discriminate].
    + rewrite andb_true_iff, Ascii.eqb_eq, IH. split.
      * intros [-> [t ->]]. by exists t.
      * intros [t Ht]. injection Ht as -> ->. split; [done | by exists t].
Qed.

Lemma startswith_app s t : Py.startswith (s ++ t) s = true.
Proof. apply startswith_spec. by exists t. Qed.

Lemma startswith_length s p : Py.startswith s p = true -> length p <= length s.
Proof.
  intros [t ->]%startswith_spec. rewrite length_app. lia.
Qed.

Lemma startswith_app_true s t p :
  Py.startswith s p = true -> Py.startswith (s ++ t) p = true.
Proof.
  intros [u ->]%startswith_spec. rewrite <- app_assoc. apply startswith_app.
Qed.

Lemma startswith_app_false s t p :
  Py.startswith s p = false -> length p <= length s -> Py.startswith (s ++ t) p = false.
Proof.
  revert s. induction p as [|a p IH]; intros s; simpl; [done|].
  destruct s as [|c s]; simpl; [lia|].
  intros H Hl. destruct (Ascii.eqb a c); simpl in *; [|done].
  apply IH; [done | lia].
Qed.

Lemma find_nil_sub s : Py.find s [] = Some 0.
Proof. by destruct s. Qed.

Lemma find_Some s sub n :
  Py.find s sub = Some n ->
  Py.startswith (drop n s) sub = true /\ n + length sub <= length s /\
  forall i, i < n -> Py.startswith (drop i s) sub = false.
Proof.
  revert n. induction s as [|c s IH]; intros n; simpl.
  - destruct sub; simpl; [|done]. intros [= <-]. repeat split; [simpl; lia | lia].
  - destruct (Py.startswith (c :: s) sub) eqn:E.
    + intros [= <-]. simpl. split; [done|]. split; [|lia].
      apply startswith_length in E. simpl in E. lia.
    + destruct (Py.find s sub) as [m|] eqn:F; simpl; [|done].
      intros [= <-]. destruct (IH m eq_refl) as (H1 & H2 & H3).
      split; [done|]. split; [simpl; lia|].
      intros [|i] Hi; simpl; [done | apply H3; lia].
Qed.

Lemma find_split s sub n :
  Py.find s sub = Some n -> s = take n s ++ sub ++ drop (n + length sub) s.
Proof.
  intros (H1 & _ & _)%find_Some. apply startswith_spec in H1 as [t Ht].
  rewrite <- drop_drop, Ht, drop_app_length, <- Ht. by rewrite take_drop.
Qed.

Lemma find_app_l s t sub n :
  Py.find s sub = Some n -> Py.find (s ++ t) sub = Some n.
Proof.
  revert n. induction s as [|c s IH]; intros n; simpl.
  - destruct sub; simpl; [|done]. intros [= <-]. apply find_nil_sub.
  - destruct (Py.startswith (c :: s) sub) eqn:E.
    + intros [= <-]. change (c :: s ++ t) with ((c :: s) ++ t).
      by rewrite startswith_app_true.
    + destruct (Py.find s sub) as [m|] eqn:F; simpl; [|done].
      intros [= <-]. change (c :: s ++ t) with ((c :: s) ++ t).
      rewrite startswith_app_false; [by rewrite (IH m) | done |].
      apply find_Some in F as (_ & F & _). simpl. lia.
Qed.

Lemma find_at s t sub :
  (forall i, i < length s -> Py.startswith (drop i (s ++ sub ++ t)) sub = false) ->
  Py.find (s ++ sub ++ t) sub = Some (length s).
Proof.
  induction s as [|c s IH]; intros H; simpl.
  - destruct (sub ++ t) eqn:E; simpl.
    + destruct sub; [done | discriminate].
    + rewrite <- E. by rewrite startswith_app.
  - specialize (H 0 ltac:(simpl; lia)) as H0. simpl in H0. rewrite H0.
    rewrite IH; [done|]. intros i Hi. apply (H (S i)). simpl. lia.
Qed.

Lemma find_None s sub i :
  Py.find s sub = None -> Py.startswith (drop i s) sub = false.
Proof.
  revert i. induction s as [|c s IH]; intros i; simpl.
  - destruct sub; simpl; [done|]. intros _. by rewrite drop_nil.
  - destruct (Py.startswith (c :: s) sub) eqn:E; [done|].
    destruct (Py.find s sub) eqn:F; simpl; [done|]. intros _.
    destruct i; simpl; [done | by apply IH].
Qed.

Lemma find_ge s sub k i :
  match Py.find s sub with Some n => k <=? n | None => true end = true ->
  i < k -> Py.startswith (drop i s) sub = false.
Proof.
  destruct (Py.find s sub) as [n|] eqn:F.
  - intros Hk%Nat.leb_le Hi. apply find_Some in F as (_ & _ & F). apply F. lia.
  - intros _ _. by apply find_None.
Qed.

Lemma replace_from_fuel f1 f2 s old new :
  old <> [] -> length s <= f1 -> length s <= f2 ->
  Py.replace_from f1 s old new = Py.replace_from f2 s old new.
Proof.
  intros Hold. revert f2 s. induction f1 as [|f1 IH]; intros f2 s H1 H2.
  - destruct s; simpl in H1; [|lia]. destruct f2; simpl; [done|].
    destruct old; [done | by simpl].
  - destruct f2 as [|f2].
    + destruct s; simpl in H2; [|lia]. simpl. destruct old; [done | by simpl].
    + simpl. destruct (Py.find s old) as [n|] eqn:F; [|done].
      do 2 f_equal. apply find_Some in F as (_ & F & _).
      assert (0 < length old) by (destruct old; [done | simpl; lia]).
      apply IH; rewrite length_drop; lia.
Qed.

Lemma replace_unfold s old new :
  old <> [] ->
  Py.replace s old new =
    match Py.find s old with
    | Some n => take n s ++ new ++ Py.replace (drop (n + length old) s) old new
    | None => s
    end.
Proof.
  intros Hold. unfold Py.replace. destruct old as [|a old]; [done|].
  destruct (length s) as [|k] eqn:Hk.
  - destruct s; [|done]. by simpl.
  - simpl Py.replace_from. destruct (Py.find s (a :: old)) as [n|] eqn:F; [|done].
    do 2 f_equal. apply find_Some in F as (_ & F & _). simpl in F.
    apply replace_from_fuel; [done | |]; rewrite ?length_drop; simpl; lia.
Qed.

Lemma replace_cons a s old new :
  old <> [] ->
  Py.replace (a :: s) old new =
    if Py.startswith (a :: s) old
    then new ++ Py.replace (drop (length old) (a :: s)) old new
    else a :: Py.replace s old new.
Proof.
  intros Hold. rewrite (replace_unfold (a :: s)) by done. simpl Py.find.
  destruct (Py.startswith (a :: s) old) eqn:E; [done|].
  rewrite (replace_unfold s) by done.
  destruct (Py.find s old) as [n|]; simpl; [|done]. done.
Qed.

Lemma replace_nil old new : old <> [] -> Py.replace [] old new = [].
Proof. intros H. rewrite replace_unfold by done. destruct old; [done | by simpl]. Qed.

Lemma replace_not_found s old new :
  old <> [] -> Py.find s old = None -> Py.replace s old new = s.
Proof. intros H F. by rewrite replace_unfold, F. Qed.

Lemma replace_found s old new n :
  old <> [] -> Py.find s old = Some n ->
  Py.replace s old new = take n s ++ new ++ Py.replace (drop (n + length old) s) old new.
Proof. intros H F. by rewrite replace_unfold, F. Qed.

Lemma replace_skip_prefix p t old new :
  old <> [] ->
  (forall i, i < length p -> Py.startswith (drop i (p ++ t)) old = false) ->
  Py.replace (p ++ t) old new = p ++ Py.replace t old new.
Proof.
  intros Hold. induction p as [|a p IH]; intros H; [done|].
  simpl. rewrite replace_cons by done.
  specialize (H 0 ltac:(simpl; lia)) as H0. simpl in H0. rewrite H0.
  f_equal. apply IH. intros i Hi. apply (H (S i)). simpl. lia.
Qed.

(** Removing a character. *)
Lemma replace_char_remove s c :
  Py.replace s [c] [] = List.filter (fun a => negb (Ascii.eqb c a)) s.
Proof.
  induction s as [|a s IH]; [done|].
  rewrite replace_cons by done. cbn [Py.startswith length drop List.filter app].
  rewrite andb_true_r. destruct (Ascii.eqb c a); cbn [negb]; [done | by rewrite IH].
Qed.

Lemma replace_char_app s t c :
  Py.replace (s ++ t) [c] [] = Py.replace s [c] [] ++ Py.replace t [c] [].
Proof. rewrite !replace_char_remove. apply List.filter_app. Qed.

Lemma replace_char_absent s c :
  ~ In c s -> Py.replace s [c] [] = s.
Proof.
  rewrite replace_char_remove. induction s as [|a s IH]; intros H; [done|].
  simpl. destruct (Ascii.eqb c a) eqn:E.
  - apply Ascii.eqb_eq in E. subst. destruct H. by left.
  - simpl. f_equal. apply IH. intros Hin. apply H. by right.
Qed.

Lemma partition_found s sep n :
  sep <> [] -> Py.find s sep = Some n ->
  Py.partition s sep = Some (take n s, sep, drop (n + length sep) s).
Proof. intros H F. unfold Py.partition. destruct sep; [done|]. by rewrite F. Qed.

Lemma partition_not_found s sep :
  sep <> [] -> Py.find s sep = None -> Py.partition s sep = Some (s, [], []).
Proof. intros H F. unfold Py.partition. destruct sep; [done|]. by rewrite F. Qed.

(** ** Templates *)

Lemma percent_go_app st p rest d :
  Py.percent_go st (p ++ rest) d =
  '(st', out) ← Py.percent_steps st p d; (app out) <$> Py.percent_go st' rest d.
Proof.
  revert st. induction p as [|c p IH]; intros st.
  - simpl. by destruct (Py.percent_go st rest d).
  - change ((c :: p) ++ rest) with (c :: p ++ rest). cbn [Py.percent_go Py.percent_steps].
    destruct (Py.percent_step st c d) as [[st' out]|]; [|done]. cbn [mbind option_bind].
    rewrite IH. destruct (Py.percent_steps st' p d) as [[st'' out']|]; [|done].
    cbn [mbind option_bind]. destruct (Py.percent_go st'' rest d); [|done].
    cbn. by rewrite app_assoc.
Qed.

Lemma percent_steps_literal lit d :
  ~ In "%"%char lit -> Py.percent_steps Py.PLit lit d = Some (Py.PLit, lit).
Proof.
  induction lit as [|c lit IH]; intros H; [done|].
  cbn [Py.percent_steps Py.percent_step]. destruct (Ascii.eqb c "%") eqn:E.
  - apply Ascii.eqb_eq in E. subst. destruct H. by left.
  - cbn [mbind option_bind]. rewrite IH by (intros Hin; apply H; by right). done.
Qed.

Lemma percent_literal lit rest d :
  ~ In "%"%char lit ->
  Py.percent_go Py.PLit (lit ++ rest) d = (app lit) <$> Py.percent_go Py.PLit rest d.
Proof. intros H. by rewrite percent_go_app, percent_steps_literal. Qed.

Lemma rjust_no_percent s w : ~ In "%"%char s -> ~ In "%"%char (Py.rjust s w).
Proof.
  intros H. unfold Py.rjust. rewrite in_app_iff. intros [Hin|Hin]; [|done].
  apply repeat_spec in Hin. discriminate.
Qed.

Lemma default_template d thd m :
  Py.format (_Formatter.fmt (_Formatter.__init__ d None)) [thd; m] =
  Some ("%(asctime)s.%(msecs)03d %(levelname)8s %(process)07d [" ++ Py.rjust thd 15
        ++ "] " ++ Py.rjust m 30 ++ ":%(lineno)04d : %(message)s").
Proof. reflexivity. Qed.

Lemma default_line env fm r thd m :
  logging._fmt fm = "%(asctime)s.%(msecs)03d %(levelname)8s %(process)07d [" ++ Py.rjust thd 15
        ++ "] " ++ Py.rjust m 30 ++ ":%(lineno)04d : %(message)s" ->
  ~ In "%"%char thd -> ~ In "%"%char m ->
  logging.formatMessage fm (logging.prepare env fm r) =
  Some (logging.formatTime env fm r ++ "." ++ Py.zfill (Py.dec (logging.msecs r)) 3 ++ " "
        ++ Py.rjust (logging.levelname r) 8 ++ " " ++ Py.zfill (Py.dec (logging.process r)) 7
        ++ " [" ++ Py.rjust thd 15 ++ "] " ++ Py.rjust m 30 ++ ":"
        ++ Py.zfill (Py.dec (logging.lineno r)) 4 ++ " : " ++ logging.getMessage r).
Proof.
  intros Hf Ht Hm. unfold logging.formatMessage, logging.prepare.
  assert (Hu : logging.usesTime fm = true).
  { unfold logging.usesTime. rewrite Hf. reflexivity. }
  rewrite Hu, Hf. clear Hf Hu. unfold Py.percent.
  set (D := logging.__dict__ _).
  rewrite percent_go_app.
  assert (H1 : Py.percent_steps Py.PLit
                 "%(asctime)s.%(msecs)03d %(levelname)8s %(process)07d [" D
               = Some (Py.PLit, logging.formatTime env fm r ++ "."
                         ++ Py.zfill (Py.dec (logging.msecs r)) 3 ++ " "
                         ++ Py.rjust (logging.levelname r) 8 ++ " "
                         ++ Py.zfill (Py.dec (logging.process r)) 7 ++ " [")).
  { subst D. vm_compute. reflexivity. }
  rewrite H1. clear H1. cbn [mbind option_bind].
  rewrite percent_literal by (by apply rjust_no_percent).
  rewrite (percent_literal "] ") by (simpl; intros [|[|[]]]; discriminate).
  rewrite percent_literal by (by apply rjust_no_percent).
  assert (H3 : Py.percent_go Py.PLit ":%(lineno)04d : %(message)s" D
               = Some (":" ++ Py.zfill (Py.dec (logging.lineno r)) 4 ++ " : "
                         ++ logging.getMessage r ++ [])).
  { subst D. vm_compute. reflexivity. }
  rewrite app_nil_r in H3. rewrite H3. cbn [fmap option_fmap option_map]. by rewrite <- !app_assoc.
Qed.

(** ** The exception summary *)

Lemma exc_fmt_init d t : _Formatter.exc_fmt (_Formatter.__init__ d t) = "{0}: {1} {2}on line {3}".
Proof. unfold _Formatter.__init__. by destruct (negb (Py.truthy t)). Qed.

Lemma exc_fmt_format a b c d :
  Py.format "{0}: {1} {2}on line {3}" [a; b; c; d] =
  Some (a ++ ": " ++ b ++ " " ++ c ++ "on line " ++ d).
Proof. rewrite <- (app_nil_r d) at 2. reflexivity. Qed.

Lemma exception_summary_none f log r :
  Py.truthy (logging.exc_text r) = false -> _Formatter.exception_summary f log r = Some log.
Proof. intros H. unfold _Formatter.exception_summary. by rewrite H. Qed.

Lemma exception_summary_replaces d t r ei n H T rest :
  let f := _Formatter.__init__ d t in
  let E := logging.exc_value ei in
  let M := summary_clause (logging.exc_class_name ei) (logging.msg r) (logging.funcName r) n in
  Py.truthy (logging.exc_text r) = true ->
  logging.exc_info r = Some ei ->
  logging.tb_lineno ei = Some n ->
  E <> [] ->
  Py.find (H ++ E) E = Some (length H) ->
  match Py.find ("Traceback" ++ T) E with Some k => 9 <=? k | None => true end = true ->
  Py.find ((H ++ M) ++ "Traceback") "Traceback" = Some (length (H ++ M)) ->
  Py.replace rest [LF] [] = H ++ E ++ "Traceback" ++ T ->
  _Formatter.exception_summary f rest r = Some (H ++ M).
Proof.
  intros f E M Htxt Hei Hn HE Hfind Htb Hcut Hrest.
  unfold _Formatter.exception_summary. rewrite Htxt, Hei. cbn [mbind option_bind].
  rewrite Hn. cbn [mbind option_bind]. subst f. rewrite exc_fmt_init, exc_fmt_format.
  cbn [mbind option_bind]. rewrite Hrest.
  assert (HM : logging.exc_class_name ei ++ ": " ++ logging.msg r ++ " "
               ++ (if negb (Py.eqb (logging.funcName r) "<module>")
                   then "in " ++ logging.funcName r ++ "() " else [])
               ++ "on line " ++ Py.dec n = M).
  { subst M. unfold summary_clause. by destruct (Py.eqb _ _). }
  rewrite HM. clear HM. fold E.
  rewrite (replace_found _ E M (length H)); [|done|].
  2:{ rewrite app_assoc. by apply find_app_l. }
  rewrite take_app_length.
  replace (drop (length H + length E) (H ++ E ++ "Traceback" ++ T)) with ("Traceback" ++ T : str).
  2:{ rewrite app_assoc, <- length_app. by rewrite drop_app_length. }
  rewrite (replace_skip_prefix "Traceback" T E M); [|done|].
  2:{ intros i Hi. by apply (find_ge _ _ 9). }
  rewrite (partition_found _ _ (length (H ++ M))); [|done|].
  2:{ replace (H ++ M ++ "Traceback" ++ Py.replace T E M)
        with (((H ++ M) ++ "Traceback") ++ Py.replace T E M)
        by (by rewrite <- !app_assoc).
      by apply find_app_l. }
  cbn [mbind option_bind]. f_equal.
  replace (H ++ M ++ "Traceback" ++ Py.replace T E M)
    with ((H ++ M) ++ "Traceback" ++ Py.replace T E M)
    by (by rewrite <- !app_assoc).
  by rewrite take_app_length.
Qed.

Lemma prepare_fields env fm r :
  let r' := logging.prepare env fm r in
  logging.exc_info r' = logging.exc_info r /\ logging.exc_text r' = logging.exc_text r /\
  logging.stack_info r' = logging.stack_info r /\ logging.funcName r' = logging.funcName r /\
  logging.msg r' = logging.msg r /\ logging.levelname r' = logging.levelname r /\
  logging.levelno r' = logging.levelno r.
Proof. unfold logging.prepare. by destruct (logging.usesTime fm). Qed.

Lemma format_without_error env f r :
  logging.exc_info r = None -> Py.truthy (logging.exc_text r) = false ->
  _Formatter.format env f r =
    fm ← _Formatter.make_formatter env f r;
    s ← logging.formatMessage fm (logging.prepare env fm r);
    Some (logging.append_block s (logging.stack_info r), logging.prepare env fm r).
Proof.
  intros Hei Htxt. unfold _Formatter.format.
  destruct (_Formatter.make_formatter env f r) as [fm|]; [|done]. cbn [mbind option_bind].
  unfold logging.Formatter_format.
  destruct (prepare_fields env fm r) as (H1 & H2 & H3 & _).
  destruct (logging.formatMessage fm (logging.prepare env fm r)) as [s|]; [|done].
  cbn [mbind option_bind]. unfold logging.cache_exc_text. rewrite H1, Hei, H2, H3.
  unfold logging.append_block at 2. rewrite Htxt.
  by rewrite exception_summary_none by (by rewrite H2).
Qed.

Lemma strip_block s tb :
  Py.truthy (Some tb) = true ->
  Py.replace (logging.append_block s (Some tb)) [LF] [] =
  Py.replace s [LF] [] ++ Py.replace tb [LF] [].
Proof.
  intros H. unfold logging.append_block. rewrite H. cbn [default].
  destruct (logging.ends_with_newline s).
  - apply replace_char_app.
  - rewrite !replace_char_app. change (Py.replace [LF] [LF] []) with ([] : str).
    by rewrite app_nil_r.
Qed.

Lemma format_with_error env d t r fm ei n L H T :
  let f := _Formatter.__init__ d t in
  let E := logging.exc_value ei in
  let M := summary_clause (logging.exc_class_name ei) (logging.msg r) (logging.funcName r) n in
  _Formatter.make_formatter env f r = Some fm ->
  logging.exc_info r = Some ei ->
  Py.truthy (logging.exc_text r) = false ->
  logging.stack_info r = None ->
  logging.tb_lineno ei = Some n ->
  logging.print_exception ei = "Traceback" ++ T ->
  logging.formatMessage fm (logging.prepare env fm r) = Some L ->
  Py.replace L [LF] [] = H ++ E ->
  E <> [] ->
  Py.find (H ++ E) E = Some (length H) ->
  match Py.find (Py.replace (logging.print_exception ei) [LF] []) E with
  | Some k => 9 <=? k
  | None => true
  end = true ->
  Py.find ((H ++ M) ++ "Traceback") "Traceback" = Some (length (H ++ M)) ->
  fst <$> _Formatter.format env f r = Some (H ++ M).
Proof.
  intros f E M Hfm Hei Htxt Hst Hn Htb HL Hstrip HE Hfind Hge Hcut.
  unfold _Formatter.format. rewrite Hfm. cbn [mbind option_bind].
  unfold logging.Formatter_format. rewrite HL. cbn [mbind option_bind].
  destruct (prepare_fields env fm r) as (H1 & H2 & H3 & H4 & H5 & _).
  set (r2 := logging.cache_exc_text (logging.prepare env fm r)).
  assert (Hr2 : logging.exc_text r2 = Some ("Traceback" ++ T : str)
                /\ logging.exc_info r2 = Some ei /\ logging.stack_info r2 = None
                /\ logging.funcName r2 = logging.funcName r
                /\ logging.msg r2 = logging.msg r).
  { subst r2. unfold logging.cache_exc_text. rewrite H1, Hei, H2, Htxt.
    cbn. unfold logging.formatException. by rewrite Htb, H1, H3, H4, H5. }
  destruct Hr2 as (Ht2 & Hei2 & Hst2 & Hf2 & Hm2).
  rewrite Ht2, Hst2. unfold logging.append_block at 1. cbn [Py.truthy].
  rewrite (exception_summary_replaces d t r2 ei n H (Py.replace T [LF] [])).
  - cbn. by rewrite Hf2, Hm2.
  - by rewrite Ht2.
  - done.
  - done.
  - done.
  - done.
  - rewrite Htb, replace_char_app in Hge. exact Hge.
  - by rewrite Hf2, Hm2.
  - rewrite strip_block by done. rewrite Hstrip, replace_char_app, <- app_assoc.
    do 2 f_equal.
Qed.

Lemma exception_summary_loses d t r ei n L T rest :
  let f := _Formatter.__init__ d t in
  let E := logging.exc_value ei in
  Py.truthy (logging.exc_text r) = true ->
  logging.exc_info r = Some ei ->
  logging.tb_lineno ei = Some n ->
  E <> [] ->
  match Py.find (L ++ "Traceback" ++ T) E with
  | Some k => length L + 9 <=? k
  | None => true
  end = true ->
  Py.find (L ++ "Traceback") "Traceback" = Some (length L) ->
  Py.replace rest [LF] [] = L ++ "Traceback" ++ T ->
  _Formatter.exception_summary f rest r = Some L.
Proof.
  intros f E Htxt Hei Hn HE Hge Hcut Hrest.
  unfold _Formatter.exception_summary. rewrite Htxt, Hei. cbn [mbind option_bind].
  rewrite Hn. cbn [mbind option_bind]. subst f. rewrite exc_fmt_init, exc_fmt_format.
  cbn [mbind option_bind]. rewrite Hrest. fold E.
  set (M := _ ++ ": " ++ _).
  replace (L ++ "Traceback" ++ T) with ((L ++ "Traceback") ++ T) in *
    by (by rewrite <- app_assoc).
  rewrite (replace_skip_prefix (L ++ "Traceback") T E M); [|done|].
  2:{ intros i Hi. apply (find_ge _ _ (length L + 9)); [done|].
      rewrite length_app in Hi. exact Hi. }
  rewrite (partition_found _ _ (length L)); [|done|by apply find_app_l].
  cbn [mbind option_bind]. f_equal.
  by rewrite <- !app_assoc, take_app_length.
Qed.

(** A line that does not hold the text of the exception in front of the
    traceback is left without a summary: the clause goes where
    [str(exception)] stands, and what stands behind [Traceback] is cut. *)
Lemma format_loses_summary env d t r fm ei n L T :
  let f := _Formatter.__init__ d t in
  let E := logging.exc_value ei in
  let L' := Py.replace L [LF] [] in
  _Formatter.make_formatter env f r = Some fm ->
  logging.exc_info r = Some ei ->
  Py.truthy (logging.exc_text r) = false ->
  logging.stack_info r = None ->
  logging.tb_lineno ei = Some n ->
  logging.print_exception ei = "Traceback" ++ T ->
  logging.formatMessage fm (logging.prepare env fm r) = Some L ->
  E <> [] ->
  match Py.find (L' ++ "Traceback" ++ Py.replace T [LF] []) E with
  | Some k => length L' + 9 <=? k
  | None => true
  end = true ->
  Py.find (L' ++ "Traceback") "Traceback" = Some (length L') ->
  fst <$> _Formatter.format env f r = Some L'.
Proof.
  intros f E L' Hfm Hei Htxt Hst Hn Htb HL HE Hge Hcut.
  unfold _Formatter.format. rewrite Hfm. cbn [mbind option_bind].
  unfold logging.Formatter_format. rewrite HL. cbn [mbind option_bind].
  destruct (prepare_fields env fm r) as (H1 & H2 & H3 & H4 & H5 & _).
  set (r2 := logging.cache_exc_text (logging.prepare env fm r)).
  assert (Hr2 : logging.exc_text r2 = Some ("Traceback" ++ T : str)
                /\ logging.exc_info r2 = Some ei /\ logging.stack_info r2 = None).
  { subst r2. unfold logging.cache_exc_text. rewrite H1, Hei, H2, Htxt.
    cbn. unfold logging.formatException. by rewrite Htb, H1, H3. }
  destruct Hr2 as (Ht2 & Hei2 & Hst2).
  rewrite Ht2, Hst2. unfold logging.append_block at 1. cbn [Py.truthy].
  rewrite (exception_summary_loses d t r2 ei n L' (Py.replace T [LF] [])).
  - done.
  - by rewrite Ht2.
  - done.
  - done.
  - done.
  - done.
  - done.
  - rewrite strip_block by done. by rewrite replace_char_app.
Qed.

(** ** Re-rendering *)







(** ** Size-based rotation *)

Lemma appended_only_refl base w : appended_only base w w.
Proof. repeat split. exists []. by rewrite app_nil_r. Qed.

Lemma appended_only_trans base w1 w2 w3 :
  appended_only base w1 w2 -> appended_only base w2 w3 -> appended_only base w1 w3.
Proof.
  intros (R1 & F1 & a1 & A1) (R2 & F2 & a2 & A2). repeat split.
  - congruence.
  - intros p Hp. rewrite F2, F1; done.
  - exists (a1 ++ a2). by rewrite A2, A1, app_assoc.
Qed.

Lemma appended_only_open base w : appended_only base w (handlers._open base w).
Proof.
  unfold handlers._open. destruct (files w !! base) eqn:E; [apply appended_only_refl|].
  repeat split.
  - intros p Hp. cbn. by rewrite lookup_insert_ne.
  - exists []. cbn. by rewrite lookup_insert_eq, E.
Qed.

Lemma appended_only_write base text w :
  appended_only base w (handlers.write (handlers.ToFile base) text w).
Proof.
  repeat split.
  - intros p Hp. cbn. by rewrite lookup_insert_ne.
  - exists text. cbn. by rewrite lookup_insert_eq.
Qed.

Lemma appended_only_same_files base w w' :
  files w' = files w -> rollovers w' = rollovers w -> appended_only base w w'.
Proof.
  intros Hf Hr. repeat split; [done | by rewrite Hf |].
  exists []. by rewrite Hf, app_nil_r.
Qed.

Lemma appended_only_handleError env base r w :
  appended_only base w (handlers.handleError env r w).
Proof. by apply appended_only_same_files. Qed.

Lemma appended_only_format env base h r w :
  appended_only base w (snd (handlers.format env h r w)).
Proof. by apply appended_only_same_files. Qed.

Lemma appended_only_FileHandler_emit env base h r w :
  appended_only base w (snd (handlers.FileHandler_emit env h base r w)).
Proof.
  unfold handlers.FileHandler_emit, handlers.StreamHandler_emit.
  eapply appended_only_trans; [apply appended_only_open|].
  destruct (handlers.format env h r (handlers._open base w)) as [[[msg r']|] w'] eqn:E.
  - cbn [snd]. eapply appended_only_trans; [|apply appended_only_write].
    change w' with (snd (Some (msg, r'), w')). rewrite <- E. apply appended_only_format.
  - cbn [snd]. eapply appended_only_trans; [|apply appended_only_handleError].
    change w' with (snd (@None (str * logging.LogRecord), w')). rewrite <- E.
    apply appended_only_format.
Qed.

Lemma shouldRollover_unlimited env h base r w :
  handlers.shouldRollover env h base 0 r w = (Some false, r, handlers._open base w).
Proof. reflexivity. Qed.

Lemma appended_only_emit env base h backupCount delay r w :
  appended_only base w
    (snd (handlers.RotatingFileHandler_emit env h base 0 backupCount delay r w)).
Proof.
  unfold handlers.RotatingFileHandler_emit. rewrite shouldRollover_unlimited.
  eapply appended_only_trans; [apply appended_only_open|].
  apply appended_only_FileHandler_emit.
Qed.

(** ** Construction of a [Logger] *)

Lemma setLevel_inv name level w w' :
  handlers.setLevel name level w = inr w' ->
  exists L, handlers._checkLevel level = inr L /\
            w' = set_loggerDict (alter (with_level L) name (loggerDict w)) w.
Proof.
  unfold handlers.setLevel. destruct (handlers._checkLevel level) as [e|L]; [done|].
  intros [= <-]. by exists L.
Qed.

Lemma init_inv env a w self w' :
  Logger.__init__ env a w = inr (self, w') ->
  exists wf ws c wh wl L,
    Neo__call__ "_Formatter"
      (Logger.new_formatter (Logger.Args.datefmt a) (Logger.Args.fmt a)) w
      = (Logger.formatter self, wf) /\
    (if Logger.Args.colored a
     then Neo__call__ "_StreamHandler" (Logger.new_handler KaamikiStreamHandler) wf
     else Logger.new_handler (StreamHandler Stderr) wf) = (Logger.stream self, ws) /\
    Logger.file_class a (Logger._file self) = inr c /\
    Logger.new_handler c
      (if Logger.Args.delay a
       then handlers.setFormatter (Logger.stream self) (Logger.formatter self) ws
       else handlers._open (Logger._file self)
              (handlers.setFormatter (Logger.stream self) (Logger.formatter self) ws))
      = (Logger.file self, wh) /\
    handlers.getLogger
      (if Py.truthy (Logger.Args.root a) then Logger.Args.root a else None)
      (handlers.setFormatter (Logger.file self) (Logger.formatter self) wh)
      = (Logger.logger self, wl) /\
    handlers._checkLevel (Logger.level self) = inr L /\
    Logger.args self = a /\
    w' = handlers.addHandler (Logger.logger self) (Logger.stream self)
           (handlers.addHandler (Logger.logger self) (Logger.file self)
              (set_loggerDict
                 (alter (with_level L) (Logger.logger self) (loggerDict wl)) wl)).
Proof.
  unfold Logger.__init__.
  destruct (Neo__call__ "_Formatter" _ w) as [fo wf].
  destruct (if Logger.Args.colored a then _ else _) as [so ws] eqn:E2.
  destruct (Logger.file_class a _) as [e|c] eqn:E3; [done|].
  destruct (Logger.new_handler c _) as [fi wh] eqn:E4.
  destruct (handlers.getLogger _ _) as [lg wl] eqn:E5.
  destruct (handlers.setLevel lg _ wl) as [e|w2] eqn:E6; [done|].
  intros [= <- <-]. cbn.
  apply setLevel_inv in E6 as (L & HL & ->).
  by exists wf, ws, c, wh, wl, L.
Qed.

Lemma new_handler_inv c w o w' :
  Logger.new_handler c w = (o, w') ->
  o = next_id w /\ next_id w' = S (next_id w) /\
  handlers w' = <[o := {| h_class := c; h_formatter := None; h_level := logging.NOTSET |}]> (handlers w) /\
  _instances w' = _instances w /\ formatters w' = formatters w /\
  loggerDict w' = loggerDict w /\ disable w' = disable w.
Proof. unfold Logger.new_handler, fresh. by intros [= <- <-]. Qed.

Lemma new_formatter_inv d t w o w' :
  Logger.new_formatter d t w = (o, w') ->
  o = next_id w /\ next_id w' = S (next_id w) /\
  formatters w' = <[o := _Formatter.__init__ d t]> (formatters w) /\
  _instances w' = _instances w /\ handlers w' = handlers w /\
  loggerDict w' = loggerDict w /\ disable w' = disable w.
Proof. unfold Logger.new_formatter, fresh. by intros [= <- <-]. Qed.

Lemma getLogger_inv n w lg wl :
  handlers.getLogger n w = (lg, wl) ->
  next_id wl = next_id w /\ handlers wl = handlers w /\ _instances wl = _instances w /\
  formatters wl = formatters w /\ disable wl = disable w.
Proof.
  unfold handlers.getLogger. destruct n as [n|]; [|by intros [= <- <-]].
  destruct (loggerDict w !! n); by intros [= <- <-].
Qed.

(** What a call through [Neo] returns is the registered instance afterwards;
    the call does not lower [next_id], and only [construct] touches the rest. *)
Lemma Neo_registered cls construct w o w' :
  Neo__call__ cls construct w = (o, w') -> _instances w' !! cls = Some o.
Proof.
  unfold Neo__call__. destruct (_instances w !! cls) as [o'|] eqn:E.
  - by intros [= <- <-].
  - destruct (construct w) as [o' w'']. intros [= <- <-]. cbn. apply lookup_insert_eq.
Qed.

Lemma Neo_existing cls construct w o :
  _instances w !! cls = Some o -> Neo__call__ cls construct w = (o, w).
Proof. intros E. unfold Neo__call__. by rewrite E. Qed.

Lemma Neo_other cls cls' construct w o w' :
  cls <> cls' ->
  (forall o1 w1, construct w = (o1, w1) -> _instances w1 = _instances w) ->
  Neo__call__ cls construct w = (o, w') -> _instances w' !! cls' = _instances w !! cls'.
Proof.
  intros Hne Hc. unfold Neo__call__. destruct (_instances w !! cls) as [o'|] eqn:E.
  - by intros [= <- <-].
  - destruct (construct w) as [o' w''] eqn:E'. intros [= <- <-]. cbn.
    rewrite lookup_insert_ne by done. by rewrite (Hc _ _ eq_refl).
Qed.

Lemma Neo_next_id cls construct w o w' :
  (forall o1 w1, construct w = (o1, w1) -> next_id w <= next_id w1) ->
  Neo__call__ cls construct w = (o, w') -> next_id w <= next_id w'.
Proof.
  intros Hc. unfold Neo__call__. destruct (_instances w !! cls) as [o'|].
  - intros [= <- <-]. lia.
  - destruct (construct w) as [o' w''] eqn:E'. intros [= <- <-]. cbn. eauto.
Qed.

Lemma Neo_disable cls construct w o w' :
  (forall o1 w1, construct w = (o1, w1) -> disable w1 = disable w) ->
  Neo__call__ cls construct w = (o, w') -> disable w' = disable w.
Proof.
  intros Hc. unfold Neo__call__. destruct (_instances w !! cls) as [o'|].
  - by intros [= <- <-].
  - destruct (construct w) as [o' w''] eqn:E'. intros [= <- <-]. cbn. eauto.
Qed.

Lemma open_frame path w :
  next_id (handlers._open path w) = next_id w /\
  handlers (handlers._open path w) = handlers w /\
  _instances (handlers._open path w) = _instances w /\
  formatters (handlers._open path w) = formatters w /\
  loggerDict (handlers._open path w) = loggerDict w /\
  disable (handlers._open path w) = disable w.
Proof. unfold handlers._open. by destruct (files w !! path). Qed.

Lemma init_constructed env a w self w' :
  Logger.__init__ env a w = inr (self, w') -> constructed a w self w'.
Proof.
  intros (wf & ws & c & wh & wl & L & E1 & E2 & E3 & E4 & E5 & E6 & _ & ->)%init_inv.
  pose proof (Neo_registered _ _ _ _ _ E1) as R1.
  assert (N1 : next_id w <= next_id wf).
  { eapply Neo_next_id; [|exact E1]. intros o1 w1 (_ & H & _)%new_formatter_inv. lia. }
  assert (D1 : disable wf = disable w).
  { eapply Neo_disable; [|exact E1]. by intros o1 w1 (_ & _ & _ & _ & _ & _ & H)%new_formatter_inv. }
  assert (S2 : _instances ws !! ("_Formatter" : str) = Some (Logger.formatter self)
               /\ next_id wf <= next_id ws /\ disable ws = disable wf
               /\ (Logger.Args.colored a = true ->
                   _instances ws !! ("_StreamHandler" : str) = Some (Logger.stream self))
               /\ (Logger.Args.colored a = false ->
                   next_id wf <= Logger.stream self < next_id ws)
               /\ (formatters ws = formatters wf)).
  { destruct (Logger.Args.colored a).
    - split; [|split; [|split; [|split; [|split]]]].
      + rewrite <- R1. eapply Neo_other; [| |exact E2]; [done|].
        by intros o1 w1 (_ & _ & _ & H & _)%new_handler_inv.
      + eapply Neo_next_id; [|exact E2]. intros o1 w1 (_ & H & _)%new_handler_inv. lia.
      + eapply Neo_disable; [|exact E2].
        by intros o1 w1 (_ & _ & _ & _ & _ & _ & H)%new_handler_inv.
      + intros _. by eapply Neo_registered.
      + done.
      + revert E2. unfold Neo__call__.
        destruct (_instances wf !! ("_StreamHandler" : str)); [by intros [= _ <-]|].
        destruct (Logger.new_handler _ wf) as [o1 w1] eqn:E.
        apply new_handler_inv in E as (_ & _ & _ & _ & E & _). by intros [= _ <-].
    - apply new_handler_inv in E2 as (-> & H2 & _ & H4 & H5 & _ & H7).
      split; [by rewrite H4|]. split; [lia|]. split; [done|]. split; [done|].
      split; [intros _; lia | done].
  }
  destruct S2 as (R2 & N2 & D2 & RS & FS & F2).
  set (w3 := if Logger.Args.delay a then _ else _) in E4.
  assert (Hw3 : next_id w3 = next_id ws /\ _instances w3 = _instances ws
                /\ disable w3 = disable ws /\ formatters w3 = formatters ws).
  { subst w3. destruct (Logger.Args.delay a); [done|].
    destruct (open_frame (Logger._file self)
                (handlers.setFormatter (Logger.stream self) (Logger.formatter self) ws))
      as (O1 & _ & O3 & O4 & _ & O6).
    by rewrite O1, O3, O4, O6. }
  destruct Hw3 as (N3 & I3 & D3 & F3).
  apply new_handler_inv in E4 as (Hfile & N4 & H4 & I4 & F4 & _ & D4).
  apply getLogger_inv in E5 as (N5 & H5 & I5 & F5 & D5).
  cbn in N5, H5, I5, F5, D5, N3, I3, D3, F3.
  split; cbn -[list_ascii_of_string].
  - by rewrite I5, I4, I3.
  - intros Hc. rewrite I5, I4, I3. by apply RS.
  - intros Hc. specialize (FS Hc). rewrite N5. lia.
  - rewrite N5. lia.
  - exists c. eexists. split; [done|]. rewrite H5, H4, Hfile.
    rewrite lookup_alter_eq, lookup_insert_eq. cbn. split; [reflexivity|]. by split.
  - exists L. split; [done|]. intros l.
    rewrite !lookup_alter_eq.
    destruct (loggerDict wl !! Logger.logger self); cbn; [|done]. by intros [= <-].
  - by rewrite D5, D4, D3, D2, D1.
  - intros o Ho. revert E1. unfold Neo__call__. rewrite Ho. by intros [= <- _].
  - intros Hc o Ho. rewrite Hc in E2.
    assert (Ho' : _instances wf !! ("_StreamHandler" : str) = Some o).
    { rewrite <- Ho. eapply Neo_other; [| |exact E1]; [done|].
      by intros o1 w1 (_ & _ & _ & H & _)%new_formatter_inv. }
    revert E2. unfold Neo__call__. rewrite Ho'. by intros [= <- _].
  - rewrite N5. lia.
  - intros [o Ho]. rewrite F5, F4, F3, F2.
    revert E1. unfold Neo__call__. rewrite Ho. by intros [= _ <-].
Qed.

(** ** The default template *)

Lemma init_default d :
  _Formatter.user_fmt (_Formatter.__init__ d None) = false /\
  Py.bool (_Formatter.datefmt (_Formatter.__init__ d None)) = true.
Proof. unfold _Formatter.__init__. cbn. by destruct d as [[|c s]|]. Qed.

Lemma module_truncation m :
  (if 30 <? length m
   then take 27 m ++ (if Py.bool (drop 27 m) then ("..." : str) else [])
   else m) = module_field m.
Proof.
  unfold module_field. destruct (30 <? length m) eqn:E; [|done].
  apply Nat.ltb_lt in E. destruct (drop 27 m) eqn:D; [|done].
  apply (f_equal length) in D. rewrite length_drop in D. simpl in D. lia.
Qed.

(** The template the default formatter hands to the standard formatter: the
    thread and the module column are filled in, the rest is left to [%]. *)
Lemma make_formatter_default env d r m :
  let f := _Formatter.__init__ d None in
  _Formatter.relative_path env f (logging.pathname r) = Some m ->
  _Formatter.make_formatter env f r =
    Some {| logging._fmt :=
              "%(asctime)s.%(msecs)03d %(levelname)8s %(process)07d ["
              ++ Py.rjust (thread_field r) 15 ++ "] " ++ Py.rjust (module_field m) 30
              ++ ":%(lineno)04d : %(message)s";
            logging.datefmt := Some (_Formatter.datefmt f) |}.
Proof.
  intros f Hm. subst f. unfold _Formatter.make_formatter.
  destruct (init_default d) as [-> _]. rewrite Hm. cbn [mbind option_bind].
  rewrite module_truncation. fold (thread_field r).
  rewrite default_template. cbn [mbind option_bind]. reflexivity.
Qed.

Lemma formatTime_default env d fm r :
  logging.datefmt fm = Some (_Formatter.datefmt (_Formatter.__init__ d None)) ->
  logging.formatTime env fm r
  = strftime env (_Formatter.datefmt (_Formatter.__init__ d None)) (logging.created r).
Proof.
  intros H. unfold logging.formatTime. rewrite H. cbn [Py.truthy default from_option].
  destruct (init_default d) as [_ ->]. done.
Qed.

(** The line of a record without error information under the default
    template, for a thread and a module name free of [%]. *)
Lemma default_rendering env d r m :
  let f := _Formatter.__init__ d None in
  _Formatter.relative_path env f (logging.pathname r) = Some m ->
  logging.exc_info r = None ->
  Py.truthy (logging.exc_text r) = false ->
  Py.truthy (logging.stack_info r) = false ->
  ~ In "%"%char (thread_field r) ->
  ~ In "%"%char (module_field m) ->
  fst <$> _Formatter.format env f r =
  Some (strftime env (_Formatter.datefmt f) (logging.created r) ++ "."
        ++ Py.zfill (Py.dec (logging.msecs r)) 3 ++ " "
        ++ Py.rjust (logging.levelname r) 8 ++ " "
        ++ Py.zfill (Py.dec (logging.process r)) 7
        ++ " [" ++ Py.rjust (thread_field r) 15 ++ "] " ++ Py.rjust (module_field m) 30
        ++ ":" ++ Py.zfill (Py.dec (logging.lineno r)) 4 ++ " : " ++ logging.getMessage r).
Proof.
  intros f Hm Hei Htxt Hst Ht Hmod.
  rewrite format_without_error by done.
  subst f. rewrite (make_formatter_default env d r m Hm). cbn [mbind option_bind].
  erewrite default_line; [|reflexivity|done|done]. cbn [mbind option_bind fmap option_fmap option_map fst].
  unfold logging.append_block. rewrite Hst.
  by rewrite (formatTime_default env d).
Qed.

(** ** The coloured line *)

Lemma colors_lookup :
  _colors !! logging.DEBUG = Some CYN /\ _colors !! logging.INFO = Some GRN /\
  _colors !! logging.WARNING = Some YLW /\ _colors !! logging.ERROR = Some RED /\
  _colors !! logging.CRITICAL = Some (BLD ++ RED).
Proof. repeat split; reflexivity. Qed.

(** X1: a level name that occurs once in the line is wrapped where it
    stands, in the colour of the level, and the rest of the line is kept. *)
Lemma colorized_single_occurrence super r log r' n :
  super r = Some (log, r') ->
  logging.levelname r <> [] ->
  Py.find log (logging.levelname r) = Some n ->
  Py.find (drop (n + length (logging.levelname r)) log) (logging.levelname r) = None ->
  _StreamHandler.format super r =
    Some (take n log ++ default DEF (_colors !! logging.levelno r) ++ logging.levelname r
          ++ DEF ++ drop (n + length (logging.levelname r)) log, r').
Proof.
  intros Hs Hne Hn Hrest. unfold _StreamHandler.format, _StreamHandler.render.
  rewrite Hs. cbn [mbind option_bind].
  rewrite (replace_found _ _ _ n) by done.
  rewrite (replace_not_found (drop _ _)) by done.
  by rewrite <- !app_assoc.
Qed.

(** * The claims *)

(** ** C1: an unknown rotation mode *)




(** The constructor does reject something: a time-based rotation with an
    interval unit the standard handler does not know. *)
Example unknown_when_raises :
  Logger.__init__ posix_env
    {| Logger.Args.fmt := None; Logger.Args.datefmt := None; Logger.Args.level := None;
       Logger.Args.name := None; Logger.Args.path := None; Logger.Args.root := None;
       Logger.Args.colored := true; Logger.Args.extra := []; Logger.Args.rotate := true;
       Logger.Args.rotate_by := "time"; Logger.Args.maxBytes := 0;
       Logger.Args.when := "fortnight"; Logger.Args.interval := 1; Logger.Args.utc := false;
       Logger.Args.atTime := None; Logger.Args.backupCount := 5;
       Logger.Args.encoding := None; Logger.Args.delay := false |}
    initial_world = inl ValueError.
Proof. reflexivity. Qed.

(** ** C2: the coloured line *)

(** C2 fails on the code: an ERROR record whose message holds the word
    ERROR is rendered with the colour code and the reset code around the
    level column and around the word in the message as well, because
    [str.replace] replaces every occurrence. *)
Theorem C2_level_name_in_message_is_colored :
  fst <$> _Formatter.format posix_env default_formatter error_record
    = Some (error_header ++ "disk ERROR") /\
  fst <$> _StreamHandler.format (_Formatter.format posix_env default_formatter) error_record
    = Some ("Jan 01, 2020 10:00:00.007    " ++ RED ++ "ERROR" ++ DEF
            ++ " 0004242 [           main]          kaamiki.utils.logging:0012 : disk "
            ++ RED ++ "ERROR" ++ DEF).
Proof. split; vm_compute; reflexivity. Qed.

(** A message without the level name is left alone, as C2 says. *)
Example colorized_debug_record :
  fst <$> _StreamHandler.format (_Formatter.format posix_env default_formatter) debug_record
    = Some ("Jan 01, 2020 10:00:00.007    " ++ CYN ++ "DEBUG" ++ DEF
            ++ " 0004242 [           main]          kaamiki.utils.logging:0012 : cache warm").
Proof. vm_compute. reflexivity. Qed.

(** ** C3: the exception summary *)

(** C3 fails on the code: for a record with error information whose message
    is not the text of the exception, lines 118 to 123 build the summary
    [ValueError: failed to open in load() on line 7], but line 125 puts it
    into the line only where [str(exception)] stands, and that is in the
    traceback, which line 126 cuts off: the line is rendered without any
    summary clause. *)
Theorem C3_summary_is_built_and_lost :
  logging.exc_info failed_record = Some (value_error "bad header") /\
  Py.format (_Formatter.exc_fmt default_formatter)
    ["ValueError" : str; logging.msg failed_record; "in load() " : str; Py.dec 7]
    = Some ("ValueError: failed to open in load() on line 7" : str) /\
  fst <$> _Formatter.format posix_env default_formatter failed_record
    = Some (error_header ++ "failed to open") /\
  Py.contains (error_header ++ "failed to open") "ValueError" = false /\
  Py.contains (error_header ++ "failed to open") "on line" = false.
Proof. repeat split; vm_compute; reflexivity. Qed.

(** The loss is not a matter of this record: [format_loses_summary] above
    gives it for every line that does not hold the text of the exception in
    front of the traceback. *)
Example lost_summary_by_the_general_rule :
  fst <$> _Formatter.format posix_env default_formatter failed_record
    = Some (Py.replace (error_header ++ "failed to open") [LF] []).
Proof.
  eapply (format_loses_summary posix_env None None failed_record _
            (value_error "bad header") 7%Z).
  all: try (vm_compute; reflexivity).
  discriminate.
Qed.

(** Where C3 holds: rendering a record without error information yields the
    filled template (and the stack text, if any) with no summary; for a
    record with error information and a traceback whose line, newlines
    removed, ends with the text of the exception and holds neither that text
    earlier nor the word Traceback, the text is replaced by exactly one
    clause of the shape [<ErrorKind>: <message> [in <functionName>() ]on
    line <lineNumber>], the function part being present iff the function is
    not [<module>], and the traceback is discarded. *)
Theorem summary_replaces_exception_text env d t r :
  let f := _Formatter.__init__ d t in
  (logging.exc_info r = None -> Py.truthy (logging.exc_text r) = false ->
   _Formatter.format env f r =
     (fm ← _Formatter.make_formatter env f r;
      s ← logging.formatMessage fm (logging.prepare env fm r);
      Some (logging.append_block s (logging.stack_info r), logging.prepare env fm r)))
  /\
  (forall fm ei n L H T,
     _Formatter.make_formatter env f r = Some fm ->
     logging.exc_info r = Some ei ->
     Py.truthy (logging.exc_text r) = false ->
     logging.stack_info r = None ->
     logging.tb_lineno ei = Some n ->
     logging.print_exception ei = "Traceback" ++ T ->
     logging.formatMessage fm (logging.prepare env fm r) = Some L ->
     Py.replace L [LF] [] = H ++ logging.exc_value ei ->
     logging.exc_value ei <> [] ->
     Py.find (H ++ logging.exc_value ei) (logging.exc_value ei) = Some (length H) ->
     match Py.find (Py.replace (logging.print_exception ei) [LF] []) (logging.exc_value ei) with
     | Some k => 9 <=? k
     | None => true
     end = true ->
     Py.find ((H ++ summary_clause (logging.exc_class_name ei) (logging.msg r)
                      (logging.funcName r) n) ++ "Traceback") "Traceback"
       = Some (length (H ++ summary_clause (logging.exc_class_name ei) (logging.msg r)
                             (logging.funcName r) n)) ->
     fst <$> _Formatter.format env f r
       = Some (H ++ summary_clause (logging.exc_class_name ei) (logging.msg r)
                      (logging.funcName r) n)).
Proof.
  intros f. split.
  - intros Hei Htxt. by apply format_without_error.
  - intros fm ei n L H T Hfm Hei Htxt Hst Hn Htb HL Hstrip HE Hfind Hge Hcut.
    by apply (format_with_error env d t r fm ei n L H T).
Qed.

(** A record without error information, and the exception itself logged
    in [load]. *)
Example summary_of_logged_exception :
  fst <$> _Formatter.format posix_env default_formatter error_record
    = Some (error_header ++ "disk ERROR") /\
  fst <$> _Formatter.format posix_env default_formatter exception_record
    = Some (error_header ++ summary_clause "ValueError" "bad header" "load" 7).
Proof.
  split.
  - unfold default_formatter.
    rewrite (proj1 (summary_replaces_exception_text posix_env None None error_record));
      [vm_compute; reflexivity | reflexivity | reflexivity].
  - eapply (proj2 (summary_replaces_exception_text posix_env None None exception_record)
              _ (value_error "bad header") 7%Z _ error_header).
    + vm_compute. reflexivity.
    + reflexivity.
    + reflexivity.
    + reflexivity.
    + reflexivity.
    + vm_compute. reflexivity.
    + vm_compute. reflexivity.
    + vm_compute. reflexivity.
    + discriminate.
    + vm_compute. reflexivity.
    + vm_compute. reflexivity.
    + vm_compute. reflexivity.
Qed.

(** At module scope the function part is left out. *)
Example summary_at_module_scope :
  fst <$> _Formatter.format posix_env default_formatter
            (make_record 40 "ERROR" source_path "<module>" "MainThread" "bad header"
                         (Some (value_error "bad header")))
    = Some (error_header ++ "ValueError: bad header on line 7").
Proof. vm_compute. reflexivity. Qed.

(** ** C4: the module column *)

(** C4 fails on the code for a module name that holds a percent sign: the
    40 characters of [pipeline.stage_50%%_threshold_normaliser] are cut to
    their first 27 and an ellipsis, but the cut name is pasted into the
    [%]-template of the line, where [%%] is an escape, so that the column
    shows 29 characters with a single percent sign. *)
Theorem C4_percent_in_module_name :
  _Formatter.relative_path posix_env default_formatter percent_path
    = Some ("pipeline.stage_50%%_threshold_normaliser" : str) /\
  module_field "pipeline.stage_50%%_threshold_normaliser"
    = ("pipeline.stage_50%%_thresho..." : str) /\
  fst <$> _Formatter.format posix_env default_formatter percent_module_record
    = Some ("Jan 01, 2020 10:00:00.007     INFO 0004242 [           main] pipeline.stage_50%_thresho...:0012 : started" : str).
Proof. repeat split; vm_compute; reflexivity. Qed.

(** For every module name free of [%] the column is as C4 says; this is
    [default_rendering] above.  The two lengths C4 names: *)
Example module_of_31_characters :
  fst <$> _Formatter.format posix_env default_formatter
            (make_record 20 "INFO" "/opt/kaamiki/abcdefghijklmnopqrstuvwxyz01234.py"
                         "run" "MainThread" "started" None)
    = Some ("Jan 01, 2020 10:00:00.007     INFO 0004242 [           main] abcdefghijklmnopqrstuvwxyz0...:0012 : started" : str).
Proof. vm_compute. reflexivity. Qed.

Example module_of_30_characters :
  fst <$> _Formatter.format posix_env default_formatter
            (make_record 20 "INFO" "/opt/kaamiki/abcdefghijklmnopqrstuvwxyz0123.py"
                         "run" "MainThread" "started" None)
    = Some ("Jan 01, 2020 10:00:00.007     INFO 0004242 [           main] abcdefghijklmnopqrstuvwxyz0123:0012 : started" : str).
Proof. vm_compute. reflexivity. Qed.

Lemma module_field_length m :
  (30 < length m -> module_field m = take 27 m ++ "..." /\ length (module_field m) = 30) /\
  (length m <= 30 -> module_field m = m).
Proof.
  unfold module_field. split; intros H.
  - assert (E : (30 <? length m) = true) by (by apply Nat.ltb_lt).
    rewrite E. split; [done|]. rewrite length_app, length_take.
    change (length ("..." : str)) with 3. lia.
  - destruct (30 <? length m) eqn:E; [|done]. apply Nat.ltb_lt in E. lia.
Qed.

(** ** C5: a size limit of zero *)

(** C5: for every size-based rotating handler with maxBytes equal to 0 and
    every sequence of records it emits, no rollover takes place, no file but
    the active one changes, and the active file only grows. *)
Theorem C5_unlimited_never_rotates env h base backupCount delay records w :
  appended_only base w (emit_all env h base 0 backupCount delay records w).
Proof.
  revert w. induction records as [|r records IH]; intros w.
  - apply appended_only_refl.
  - cbn [emit_all fold_left]. eapply appended_only_trans; [apply appended_only_emit|].
    apply IH.
Qed.

(** With a positive limit the same record does cause a rollover. *)
Example small_limit_rotates :
  (exists l w, Logger.__init__ posix_env small_args initial_world = inr (l, w) /\
               rollovers (Logger.log posix_env l error_record w) = 1) /\
  (exists l w, Logger.__init__ posix_env unlimited_args initial_world = inr (l, w) /\
               rollovers (Logger.log posix_env l error_record w) = 0).
Proof. split; eexists _, _; (split; [vm_compute; reflexivity|]); vm_compute; reflexivity. Qed.

(** ** C6: records below the level *)

(** C6, as stated, fails: the level is kept on the logger of the registry,
    which the Loggers of one name share, and lines 289 and 290 overwrite it.
    After a Logger with level ERROR a second one with the default level
    lowers the level of the root logger to DEBUG; a DEBUG record logged
    through the first Logger is then rendered and written. *)
Lemma C6_later_logger_lowers_the_level :
  exists first w1 second w2,
    Logger.__init__ posix_env error_args initial_world = inr (first, w1) /\
    Logger.__init__ posix_env Logger.Args.defaults w1 = inr (second, w2) /\
    handlers._checkLevel (Logger.level first) = inr logging.ERROR /\
    Logger.logger second = Logger.logger first /\
    (logging.levelno debug_record < logging.ERROR)%Z /\
    l_level <$> loggerDict w1 !! Logger.logger first = Some logging.ERROR /\
    l_level <$> loggerDict w2 !! Logger.logger first = Some logging.DEBUG /\
    stdout (Logger.log posix_env first debug_record w2) <> stdout w2 /\
    format_calls (Logger.log posix_env first debug_record w2) = format_calls w2 + 5.
Proof.
  assert (P : match Logger.__init__ posix_env error_args initial_world with
              | inr (first, w1) =>
                  match Logger.__init__ posix_env Logger.Args.defaults w1 with
                  | inr (second, w2) =>
                      handlers._checkLevel (Logger.level first) = inr logging.ERROR /\
                      Logger.logger second = Logger.logger first /\
                      (logging.levelno debug_record < logging.ERROR)%Z /\
                      l_level <$> loggerDict w1 !! Logger.logger first = Some logging.ERROR /\
                      l_level <$> loggerDict w2 !! Logger.logger first = Some logging.DEBUG /\
                      stdout (Logger.log posix_env first debug_record w2) <> stdout w2 /\
                      format_calls (Logger.log posix_env first debug_record w2)
                      = format_calls w2 + 5
                  | inl _ => False
                  end
              | inl _ => False
              end).
  { vm_compute. do 5 (split; [reflexivity|]). split; [discriminate | reflexivity]. }
  destruct (Logger.__init__ posix_env error_args initial_world) as [?|[first w1]]; [done|].
  exists first, w1.
  destruct (Logger.__init__ posix_env Logger.Args.defaults w1) as [?|[second w2]]; [done|].
  by exists second, w2.
Qed.

(** C6 (amended): after the construction of a Logger, a record of a level
    strictly below its level, logged through this Logger or through any
    other Logger on the same named logger, leaves the world as it is (no
    write to a file or to the console, no error report, no call of a
    formatter) and the call returns normally; this holds in every later
    world in which the logger of that name is as the construction left it,
    for a [logging.disable] threshold that is unchanged and was not
    negative. *)
Theorem C6_below_level_is_dropped env a w0 self w other record L w' :
  Logger.__init__ env a w0 = inr (self, w) ->
  handlers._checkLevel (Logger.level self) = inr L ->
  (0 <= disable w0)%Z ->
  (logging.levelno record < L)%Z ->
  Logger.logger other = Logger.logger self ->
  loggerDict w' !! Logger.logger self = loggerDict w !! Logger.logger self ->
  disable w' = disable w ->
  Logger.log env other record w' = w'.
Proof.
  intros E HL Hd Hlt Hother Hld Hdis.
  destruct (init_constructed _ _ _ _ _ E) as [_ _ _ _ _ (L' & HL' & Hlev) Hdw _ _ _ _].
  rewrite HL in HL'. injection HL' as <-.
  unfold Logger.log, handlers.LoggerAdapter_log. rewrite Hother.
  enough (handlers.isEnabledFor (Logger.logger self) (logging.levelno record) w' = false)
    as -> by done.
  unfold handlers.isEnabledFor. rewrite Hld.
  destruct (loggerDict w !! Logger.logger self) as [l|] eqn:El; [|done].
  specialize (Hlev l eq_refl). destruct (l_disabled l); [done|].
  destruct (logging.levelno record <=? disable w')%Z eqn:Ed; [done|].
  apply Z.leb_gt in Ed. apply Z.leb_gt.
  unfold handlers.getEffectiveLevel.
  assert (Hfirst : forall rest, handlers.first_level (Logger.logger self :: rest) w' = L).
  { intros rest. cbn [handlers.first_level]. rewrite Hld, Hlev.
    destruct (L =? 0)%Z eqn:E0; [|done]. apply Z.eqb_eq in E0. lia. }
  unfold handlers.lineage. destruct (Py.eqb _ _); rewrite Hfirst; lia.
Qed.

(** After a Logger with the default level a second one with level ERROR: a
    DEBUG record logged through the first is dropped. *)
Lemma C6_witness :
  exists first w1 second w2,
    Logger.__init__ posix_env Logger.Args.defaults initial_world = inr (first, w1) /\
    Logger.__init__ posix_env error_args w1 = inr (second, w2) /\
    Logger.log posix_env first debug_record w2 = w2.
Proof.
  assert (P : match Logger.__init__ posix_env Logger.Args.defaults initial_world with
              | inr (first, w1) =>
                  match Logger.__init__ posix_env error_args w1 with
                  | inr (second, w2) =>
                      handlers._checkLevel (Logger.level second) = inr 40%Z /\
                      (0 <= disable w1)%Z /\
                      Logger.logger first = Logger.logger second
                  | inl _ => False
                  end
              | inl _ => False
              end).
  { vm_compute. split; [reflexivity|]. split; [discriminate | reflexivity]. }
  destruct (Logger.__init__ posix_env Logger.Args.defaults initial_world)
    as [?|[first w1]]; [done|].
  exists first, w1.
  destruct (Logger.__init__ posix_env error_args w1) as [?|[second w2]] eqn:E2; [done|].
  exists second, w2. destruct P as (HL & Hd & Hsame).
  split; [reflexivity|]. split; [reflexivity|].
  apply (C6_below_level_is_dropped posix_env error_args w1 second w2 first debug_record 40%Z).
  - exact E2.
  - exact HL.
  - exact Hd.
  - vm_compute. reflexivity.
  - exact Hsame.
  - reflexivity.
  - reflexivity.
Defined.

(** A record at the level is written to both sinks. *)
Example error_record_is_written :
  exists self w,
    Logger.__init__ posix_env error_args initial_world = inr (self, w) /\
    stdout (Logger.log posix_env self error_record w) <> stdout w /\
    format_calls (Logger.log posix_env self error_record w) = 3.
Proof.
  eexists _, _. split; [vm_compute; reflexivity|]. split; [|vm_compute; reflexivity].
  vm_compute. discriminate.
Qed.

(** ** C7: what two loggers share *)




(** ** C8: a custom template *)



(** Under a custom template the main thread keeps its name, braces stay
    braces, a long module name is not cut, and the summary is still made. *)
Example custom_template_verbatim :
  fst <$> _Formatter.format posix_env
            (_Formatter.__init__ None
               (Some ("%(threadName)s {:>15} %(module)s: %(message)s" : str)))
            (make_record 20 "INFO" long_path "run" "MainThread" "started" None)
    = Some ("MainThread {:>15} stage_seven_threshold_normaliser: started" : str).
Proof. vm_compute. reflexivity. Qed.

Example custom_template_summary :
  fst <$> _Formatter.format posix_env
            (_Formatter.__init__ None (Some ("%(levelname)s %(message)s" : str)))
            exception_record
    = Some ("ERROR ValueError: bad header in load() on line 7" : str).
Proof. vm_compute. reflexivity. Qed.

(** ** C9: rendering is a function of the record and the configuration *)



(** ** C10: the thread column *)

(** C10 fails on the code for a thread name that holds a percent sign: the
    name [load-50%%] is pasted into the [%]-template of the line, where [%%]
    is an escape, and the column shows [load-50%], one character short. *)
Theorem C10_percent_in_thread_name :
  thread_field percent_thread_record = ("load-50%%" : str) /\
  fst <$> _Formatter.format posix_env default_formatter percent_thread_record
    = Some ("Jan 01, 2020 10:00:00.007     INFO 0004242 [      load-50%]          kaamiki.utils.logging:0012 : started" : str).
Proof. split; vm_compute; reflexivity. Qed.

(** For every thread name free of [%] the column is as C10 says; this is
    [default_rendering] above, with [thread_field] for the column. *)
Example main_thread_is_main :
  thread_field error_record = ("main" : str) /\
  Py.rjust (thread_field error_record) 15 = ("           main" : str) /\
  thread_field (make_record 20 "INFO" source_path "run" "worker-1" "started" None)
    = ("worker-1" : str).
Proof. repeat split; vm_compute; reflexivity. Qed.

(** * Further properties *)

(** A construction that succeeds, named without being unfolded. *)
Ltac constructed_by E :=
  match goal with
  | |- exists self w', ?init = inr (self, w') /\ _ =>
      let H := fresh in
      assert (H : match init with inr _ => true | inl _ => false end = true)
        by (vm_compute; reflexivity);
      destruct init as [?|[self w']] eqn:E; [discriminate H|];
      exists self, w'; split; [reflexivity|]
  end.

(** ** The coloured line, once more *)

Lemma colorized_single_occurrence_witness :
  exists log r',
    _Formatter.format posix_env default_formatter debug_record = Some (log, r') /\
    _StreamHandler.format (_Formatter.format posix_env default_formatter) debug_record
    = Some (take 29 log ++ CYN ++ "DEBUG" ++ DEF ++ drop 34 log, r').
Proof.
  eexists _, _. split; [vm_compute; reflexivity|].
  apply (colorized_single_occurrence (_Formatter.format posix_env default_formatter)
           debug_record _ _ 29).
  - vm_compute. reflexivity.
  - discriminate.
  - vm_compute. reflexivity.
  - vm_compute. reflexivity.
Defined.

(** ** The module name *)

Lemma split_char_no_sep s c w : In w (Py.split_char s c) -> ~ In c w.
Proof.
  revert w. induction s as [|a s IH]; intros w; cbn [Py.split_char].
  - intros [<-|[]]. by intros [].
  - destruct (Py.split_char s c) as [|w0 ws] eqn:E.
    + intros [<-|[]]. by intros [].
    + destruct (Ascii.eqb a c) eqn:Ea.
      * intros [<-|H]; [by intros []|]. by apply IH.
      * intros [<-|H].
        -- intros [->|Hin]; [by rewrite Ascii.eqb_refl in Ea|].
           revert Hin. apply IH. by left.
        -- apply IH. by right.
Qed.

Lemma Path_name_no_sep s : ~ In "/"%char (Path_name s).
Proof.
  unfold Path_name.
  set (l := List.filter _ _).
  assert (Hl : forall w, In w l -> ~ In "/"%char w).
  { intros w [Hw _]%filter_In. by eapply split_char_no_sep. }
  clearbody l. induction l as [|w l IH] using rev_ind; [by intros []|].
  rewrite last_last. apply Hl. apply in_or_app. right. by left.
Qed.

Lemma Path_stem_no_sep s : ~ In "/"%char (Path_stem s).
Proof.
  unfold Path_stem. pose proof (Path_name_no_sep s) as H.
  destruct (Py.rfind_char _ _) as [i|]; [|done].
  destruct (_ && _); [|done].
  intros Hin. apply H. rewrite <- (take_drop i (Path_name s)). apply in_or_app. by left.
Qed.

(** X2: the module name of a record holds no path separator, whatever the
    path of its source file. *)
Theorem relative_path_no_separator env f abspath m :
  _Formatter.relative_path env f abspath = Some m -> ~ In "/"%char m.
Proof.
  unfold _Formatter.relative_path.
  destruct (Py.partition abspath _) as [[[a b] c]|]; [|done].
  cbn [mbind option_bind]. intros [= <-]. apply Path_stem_no_sep.
Qed.

Lemma relative_path_no_separator_witness :
  ~ In "/"%char ("kaamiki.utils.logging" : str).
Proof.
  apply (relative_path_no_separator posix_env default_formatter source_path).
  vm_compute. reflexivity.
Defined.

(** X3: the module name of a source file outside the package and outside
    the library directory is empty: the path is not broken at either, and
    nothing stands behind the separator. *)
Theorem relative_path_outside env f abspath :
  Py.contains abspath "kaamiki" = false ->
  get_python_lib env <> [] ->
  Py.find abspath (get_python_lib env) = None ->
  _Formatter.relative_path env f abspath = Some [].
Proof.
  intros Hk Hne Hf. unfold _Formatter.relative_path. rewrite Hk.
  unfold Py.partition. destruct (get_python_lib env) as [|c l]; [done|].
  by rewrite Hf.
Qed.

Lemma relative_path_outside_witness :
  _Formatter.relative_path posix_env default_formatter script_path = Some [].
Proof.
  apply (relative_path_outside posix_env default_formatter script_path).
  - vm_compute. reflexivity.
  - discriminate.
  - vm_compute. reflexivity.
Defined.

Lemma replace_char_map s c d :
  Py.replace s [c] [d] = map (fun a => if Ascii.eqb c a then d else a) s.
Proof.
  induction s as [|a s IH]; [done|].
  rewrite replace_cons by done. cbn [Py.startswith length drop map app].
  rewrite andb_true_r. change (drop 0 s) with s.
  destruct (Ascii.eqb c a); by rewrite IH.
Qed.

Lemma replace_char_gone s c d : c <> d -> ~ In c (Py.replace s [c] [d]).
Proof.
  intros Hne. rewrite replace_char_map. intros (a & Ha & _)%in_map_iff.
  destruct (Ascii.eqb c a) eqn:E; [congruence|].
  subst. by rewrite Ascii.eqb_refl in E.
Qed.

Lemma split_char_single s c : ~ In c s -> Py.split_char s c = [s].
Proof.
  induction s as [|a s IH]; intros H; [done|].
  cbn [Py.split_char]. rewrite IH by (intros Hin; apply H; by right).
  destruct (Ascii.eqb a c) eqn:E; [|done].
  apply Ascii.eqb_eq in E. subst. destruct H. by left.
Qed.

Lemma rfind_char_absent s c : ~ In c s -> Py.rfind_char s c = None.
Proof.
  induction s as [|a s IH]; intros H; [done|].
  cbn [Py.rfind_char]. rewrite IH by (intros Hin; apply H; by right).
  destruct (Ascii.eqb a c) eqn:E; [|done].
  apply Ascii.eqb_eq in E. subst. destruct H. by left.
Qed.

Lemma rfind_char_last s t c :
  ~ In c t -> Py.rfind_char (s ++ c :: t) c = Some (length s).
Proof.
  intros H. induction s as [|a s IH].
  - cbn [app Py.rfind_char]. rewrite rfind_char_absent by done. by rewrite Ascii.eqb_refl.
  - cbn [app Py.rfind_char length]. by rewrite IH.
Qed.

Lemma eqb_eq s t : Py.eqb s t = true <-> s = t.
Proof.
  revert t. induction s as [|a s IH]; intros [|b t]; cbn [Py.eqb]; try done.
  rewrite andb_true_iff, Ascii.eqb_eq, IH. split; [by intros [-> ->] | by intros [= -> ->]].
Qed.

Lemma Path_stem_dotted body ext :
  body <> [] -> ext <> [] -> ~ In "/"%char body ->
  ~ In "/"%char ext -> ~ In "."%char ext ->
  Path_stem (body ++ "." ++ ext) = body.
Proof.
  intros Hb He Hsb Hse Hde.
  assert (Hname : Path_name (body ++ "." ++ ext) = body ++ "." ++ ext).
  { unfold Path_name. rewrite split_char_single.
    - cbn [List.filter]. destruct body as [|b body]; [done|].
      destruct ext as [|e ext]; [done|].
      replace (Py.eqb ((b :: body) ++ "." ++ e :: ext) []) with false by done.
      replace (Py.eqb ((b :: body) ++ "." ++ e :: ext) ".") with false; [done|].
      symmetry. apply not_true_is_false. intros Heq%eqb_eq.
      apply (f_equal length) in Heq. rewrite !length_app in Heq. simpl in Heq. lia.
    - rewrite in_app_iff. intros [H|H]; [done|]. simpl in H. destruct H as [H|H]; done. }
  unfold Path_stem. rewrite Hname.
  change (body ++ "." ++ ext) with (body ++ "."%char :: ext).
  rewrite rfind_char_last by done.
  assert (H1 : (0 <? length body) = true).
  { apply Nat.ltb_lt. destruct body; [done | simpl; lia]. }
  assert (H2 : (length body <? length (body ++ "."%char :: ext) - 1) = true).
  { apply Nat.ltb_lt. rewrite length_app. destruct ext; [done | simpl; lia]. }
  rewrite H1, H2. cbn [andb]. by rewrite take_app_length.
Qed.

(** X4: the module name of a source file below the first [kaamiki] of its
    path: the character behind [kaamiki] is dropped, the separators of the
    rest turn into dots, and the extension goes. *)
Theorem relative_path_below_kaamiki env f pre c below ext :
  Py.find (pre ++ "kaamiki") "kaamiki" = Some (length pre) ->
  below <> [] -> ext <> [] ->
  ~ In "/"%char ext -> ~ In "."%char ext ->
  _Formatter.relative_path env f (pre ++ "kaamiki" ++ c :: below ++ "." ++ ext)
  = Some (Py.replace below "/" ".").
Proof.
  intros Hfind Hb He Hse Hde.
  assert (Hf : Py.find (pre ++ "kaamiki" ++ c :: below ++ "." ++ ext) "kaamiki"
               = Some (length pre)).
  { rewrite app_assoc. by apply find_app_l. }
  unfold _Formatter.relative_path, Py.contains. rewrite Hf.
  rewrite (partition_found _ _ (length pre)) by done.
  cbn [mbind option_bind].
  replace (drop (length pre + length ("kaamiki" : str))
             (pre ++ "kaamiki" ++ c :: below ++ "." ++ ext))
    with (c :: below ++ "." ++ ext).
  2:{ by rewrite <- drop_drop, drop_app_length. }
  cbn [drop]. f_equal.
  change ("/" : str) with ["/"%char]. change ("." : str) with ["."%char].
  rewrite drop_0, replace_char_map, map_app.
  rewrite <- !replace_char_map.
  assert (Hext : Py.replace ("."%char :: ext) ["/"%char] ["."%char] = "."%char :: ext).
  { rewrite replace_char_map. cbn [map]. replace (Ascii.eqb "/" ".") with false by done.
    f_equal. clear -Hse. induction ext as [|a ext IH]; [done|].
    cbn [map]. destruct (Ascii.eqb "/" a) eqn:E.
    - apply Ascii.eqb_eq in E. subst. destruct Hse. by left.
    - f_equal. apply IH. intros H. apply Hse. by right. }
  change (["."%char] ++ ext) with ("."%char :: ext). rewrite Hext.
  apply (Path_stem_dotted (Py.replace below ["/"%char] ["."%char]) ext); try done.
  - rewrite replace_char_map. by destruct below.
  - by apply replace_char_gone.
Qed.

Lemma relative_path_below_kaamiki_witness :
  _Formatter.relative_path posix_env default_formatter source_path
  = Some ("kaamiki.utils.logging" : str).
Proof.
  apply (relative_path_below_kaamiki posix_env default_formatter
           "/home/user/" "/" "kaamiki/utils/logging" "py").
  - vm_compute. reflexivity.
  - discriminate.
  - discriminate.
  - simpl. intuition discriminate.
  - simpl. intuition discriminate.
Defined.

(** ** The text in front of a separator *)

Lemma startswith_take s sub n :
  Py.startswith (take n s) sub = true -> Py.startswith s sub = true.
Proof.
  intros [t Ht]%startswith_spec. apply startswith_spec.
  exists (t ++ drop n s). by rewrite app_assoc, <- Ht, take_drop.
Qed.

Lemma find_take s sub n :
  sub <> [] -> Py.find s sub = Some n -> Py.find (take n s) sub = None.
Proof.
  intros Hne (_ & Hlen & Hmin)%find_Some.
  destruct (Py.find (take n s) sub) as [k|] eqn:E; [|done].
  apply find_Some in E as (Hk & Hk' & _).
  rewrite length_take in Hk'.
  assert (Hlt : k < n) by (destruct sub; [done | simpl in Hk'; lia]).
  specialize (Hmin k Hlt).
  assert (Hk2 : Py.startswith (drop k s) sub = true).
  { rewrite <- (take_drop n s), drop_app_le by (rewrite length_take; lia).
    apply startswith_spec in Hk as [t Ht]. apply startswith_spec.
    exists (t ++ drop n s). by rewrite Ht, app_assoc. }
  congruence.
Qed.

Lemma partition_head s sep h m t :
  Py.partition s sep = Some (h, m, t) -> Py.find h sep = None.
Proof.
  unfold Py.partition. destruct sep as [|c sep]; [done|].
  destruct (Py.find s (c :: sep)) as [n|] eqn:E; intros [= <- _ _]; [|done].
  by apply find_take.
Qed.

(** ** The record a rendering leaves behind *)

Lemma Formatter_format_record env fm r s r' :
  logging.Formatter_format env fm r = Some (s, r') ->
  r' = logging.cache_exc_text (logging.prepare env fm r).
Proof.
  unfold logging.Formatter_format.
  destruct (logging.formatMessage _ _); [|done]. by intros [= _ <-].
Qed.

Lemma cached_fields env fm r :
  let r' := logging.cache_exc_text (logging.prepare env fm r) in
  logging.exc_info r' = logging.exc_info r /\
  logging.levelname r' = logging.levelname r /\
  logging.levelno r' = logging.levelno r.
Proof.
  destruct (prepare_fields env fm r) as (H1 & H2 & _ & _ & _ & H6 & H7).
  cbn zeta. unfold logging.cache_exc_text. rewrite H1.
  destruct (logging.exc_info r); [|done].
  by destruct (Py.truthy _).
Qed.

Lemma cached_text env fm r ei :
  logging.exc_info r = Some ei ->
  logging.print_exception ei <> [] ->
  Py.truthy (logging.exc_text (logging.cache_exc_text (logging.prepare env fm r))) = true.
Proof.
  intros Hei Hne. destruct (prepare_fields env fm r) as (H1 & H2 & _).
  unfold logging.cache_exc_text. rewrite H1, Hei.
  destruct (Py.truthy (logging.exc_text (logging.prepare env fm r))) eqn:E; [done|].
  cbn. unfold logging.formatException. by destruct (logging.print_exception ei).
Qed.

(** X5: a record whose error information carries no traceback cannot be
    rendered: [record.exc_info[2].tb_lineno] fails on [None]. *)
Theorem format_fails_without_traceback env f r ei :
  logging.exc_info r = Some ei ->
  logging.tb_lineno ei = None ->
  logging.print_exception ei <> [] ->
  _Formatter.format env f r = None.
Proof.
  intros Hei Hn Hne. unfold _Formatter.format.
  destruct (_Formatter.make_formatter env f r) as [fm|]; [|done]. cbn [mbind option_bind].
  destruct (logging.Formatter_format env fm r) as [[log r1]|] eqn:E; [|done].
  cbn [mbind option_bind].
  apply Formatter_format_record in E. subst r1.
  unfold _Formatter.exception_summary.
  rewrite (cached_text env fm r ei) by done.
  destruct (cached_fields env fm r) as (-> & _). rewrite Hei. cbn [mbind option_bind].
  by rewrite Hn.
Qed.

Lemma format_fails_without_traceback_witness :
  _Formatter.format posix_env default_formatter unraised_record = None.
Proof.
  apply (format_fails_without_traceback posix_env default_formatter unraised_record
           unraised_error).
  - reflexivity.
  - reflexivity.
  - discriminate.
Defined.

(** X6: the line of a record with error information holds no traceback:
    it ends in front of the first [Traceback]. *)
Theorem format_cuts_traceback env f r s r' :
  _Formatter.format env f r = Some (s, r') ->
  Py.truthy (logging.exc_text r') = true ->
  Py.find s "Traceback" = None.
Proof.
  unfold _Formatter.format.
  destruct (_Formatter.make_formatter env f r) as [fm|]; [|done]. cbn [mbind option_bind].
  destruct (logging.Formatter_format env fm r) as [[log r1]|]; [|done].
  cbn [mbind option_bind].
  destruct (_Formatter.exception_summary f log r1) as [log'|] eqn:Es; [|done].
  cbn [mbind option_bind]. intros [= <- <-] Htxt.
  revert Es. unfold _Formatter.exception_summary. rewrite Htxt.
  destruct (logging.exc_info r1) as [ei|]; [|done]. cbn [mbind option_bind].
  destruct (logging.tb_lineno ei) as [n|]; [|done]. cbn [mbind option_bind].
  destruct (Py.format _ _) as [m|]; [|done]. cbn [mbind option_bind].
  destruct (Py.partition _ _) as [[[h mid] t]|] eqn:P; [|done].
  cbn [mbind option_bind]. intros [= <-]. by eapply partition_head.
Qed.

Lemma format_cuts_traceback_witness :
  exists s r',
    _Formatter.format posix_env default_formatter failed_record = Some (s, r') /\
    Py.find s "Traceback" = None.
Proof.
  eexists _, _. split; [vm_compute; reflexivity|].
  eapply (format_cuts_traceback posix_env default_formatter failed_record).
  - vm_compute. reflexivity.
  - vm_compute. reflexivity.
Defined.

(** ** The colour of a level *)

(** X7: a level outside the colour table is shown with the reset code. *)
Theorem render_unlisted_level level r :
  level <> logging.DEBUG -> level <> logging.INFO -> level <> logging.WARNING ->
  level <> logging.ERROR -> level <> logging.CRITICAL ->
  _StreamHandler.render level r = DEF ++ logging.levelname r.
Proof.
  intros H1 H2 H3 H4 H5. unfold _StreamHandler.render, _colors.
  by rewrite !lookup_insert_ne, lookup_empty by done.
Qed.

Lemma render_unlisted_level_witness :
  _StreamHandler.render 25 notice_record = DEF ++ "NOTICE".
Proof.
  apply (render_unlisted_level 25 notice_record); vm_compute; discriminate.
Defined.

(** X8: a line in which the level name does not occur is printed as it
    is. *)
Theorem format_without_level_name super r log r' :
  super r = Some (log, r') ->
  logging.levelname r <> [] ->
  Py.find log (logging.levelname r) = None ->
  _StreamHandler.format super r = Some (log, r').
Proof.
  intros Hs Hne Hf. unfold _StreamHandler.format. rewrite Hs. cbn [mbind option_bind].
  by rewrite replace_not_found.
Qed.

Lemma format_without_level_name_witness :
  _StreamHandler.format
    (_Formatter.format posix_env (_Formatter.__init__ None (Some ("%(message)s" : str))))
    debug_record
  = _Formatter.format posix_env (_Formatter.__init__ None (Some ("%(message)s" : str)))
      debug_record.
Proof.
  etransitivity;
    [eapply (format_without_level_name
               (_Formatter.format posix_env
                  (_Formatter.__init__ None (Some ("%(message)s" : str))))
               debug_record)|].
  - vm_compute. reflexivity.
  - discriminate.
  - vm_compute. reflexivity.
  - vm_compute. reflexivity.
Defined.

(** ** Levels *)

Lemma nameToLevel_Level x : handlers._nameToLevel !! (("Level " : str) ++ x) = None.
Proof.
  unfold handlers._nameToLevel.
  rewrite !lookup_insert_ne by (intros H; vm_compute in H; discriminate H).
  apply lookup_empty.
Qed.

Lemma levelToName_Some n s :
  handlers._levelToName !! n = Some s ->
  (n = 50 \/ n = 40 \/ n = 30 \/ n = 20 \/ n = 10 \/ n = 0)%Z /\
  handlers._nameToLevel !! s = Some n.
Proof.
  unfold handlers._levelToName.
  rewrite !lookup_insert_Some, lookup_empty.
  unfold logging.CRITICAL, logging.ERROR, logging.WARNING, logging.INFO, logging.DEBUG,
    logging.NOTSET.
  intros H. repeat destruct H as [[<- <-]|[_ H]]; try done; split; try lia; reflexivity.
Qed.


(** What [setLevel] gets for the argument [level]. *)
Lemma checkLevel_level_of a :
  handlers._checkLevel (Logger.level_of a) =
  match Logger.Args.level a with
  | Some (inl n) =>
      if (n =? 0)%Z then inr logging.DEBUG
      else match handlers._levelToName !! n with
           | Some _ => inr n
           | None => inl ValueError
           end
  | Some (inr s) =>
      if Py.bool s
      then match handlers._nameToLevel !! s with
           | Some n => inr n
           | None => inl ValueError
           end
      else inr logging.DEBUG
  | None => inr logging.DEBUG
  end.
Proof.
  unfold Logger.level_of, Logger.level_truthy.
  destruct (Logger.Args.level a) as [[n|s]|]; [| |done].
  - destruct (n =? 0)%Z; [done|]. cbn [negb default from_option]. unfold id. cbn [handlers.getLevelName].
    destruct (handlers._levelToName !! n) as [s|] eqn:E.
    + apply levelToName_Some in E as [_ E]. cbn [handlers._checkLevel]. by rewrite E.
    + cbn [handlers._checkLevel]. by rewrite nameToLevel_Level.
  - destruct (Py.bool s); [|done]. cbn [default from_option]. unfold id. cbn [handlers.getLevelName].
    destruct (handlers._nameToLevel !! s) as [n|] eqn:E; [done|].
    cbn [handlers._checkLevel]. by rewrite nameToLevel_Level.
Qed.

(** ** The steps of the constructor *)


Lemma init_level_of env a w self w' :
  Logger.__init__ env a w = inr (self, w') -> Logger.level self = Logger.level_of a.
Proof.
  unfold Logger.__init__.
  destruct (Neo__call__ "_Formatter" _ w) as [fo wf].
  destruct (if Logger.Args.colored a then _ else _) as [so ws].
  destruct (Logger.file_class a _) as [e|c]; [done|].
  destruct (Logger.new_handler c _) as [fi wh].
  destruct (handlers.getLogger _ _) as [lg wl].
  destruct (handlers.setLevel lg _ wl) as [e|w2]; [done|].
  by intros [= <- _].
Qed.

Lemma init_file_name env a w self w' :
  Logger.__init__ env a w = inr (self, w') ->
  Logger._file self = os_path_join (Logger.path self) (Logger.name self ++ ".log").
Proof.
  unfold Logger.__init__.
  destruct (Neo__call__ "_Formatter" _ w) as [fo wf].
  destruct (if Logger.Args.colored a then _ else _) as [so ws].
  destruct (Logger.file_class a _) as [e|c]; [done|].
  destruct (Logger.new_handler c _) as [fi wh].
  destruct (handlers.getLogger _ _) as [lg wl].
  destruct (handlers.setLevel lg _ wl) as [e|w2]; [done|].
  by intros [= <- _].
Qed.

(** The part of the world a step leaves alone: the files, the streams, the
    counters and the loggers. *)
Lemma Neo_frame cls construct w o w' :
  (forall o1 w1, construct w = (o1, w1) ->
     files w1 = files w /\ stdout w1 = stdout w /\ stderr w1 = stderr w /\
     format_calls w1 = format_calls w /\ rollovers w1 = rollovers w /\
     loggerDict w1 = loggerDict w) ->
  Neo__call__ cls construct w = (o, w') ->
  files w' = files w /\ stdout w' = stdout w /\ stderr w' = stderr w /\
  format_calls w' = format_calls w /\ rollovers w' = rollovers w /\
  loggerDict w' = loggerDict w.
Proof.
  intros Hc. unfold Neo__call__. destruct (_instances w !! cls) as [o'|].
  - by intros [= <- <-].
  - destruct (construct w) as [o' w''] eqn:E'. intros [= <- <-]. cbn. eauto.
Qed.

Lemma new_handler_frame c w o w' :
  Logger.new_handler c w = (o, w') ->
  files w' = files w /\ stdout w' = stdout w /\ stderr w' = stderr w /\
  format_calls w' = format_calls w /\ rollovers w' = rollovers w /\
  loggerDict w' = loggerDict w.
Proof. unfold Logger.new_handler, fresh. by intros [= <- <-]. Qed.

Lemma new_formatter_frame d t w o w' :
  Logger.new_formatter d t w = (o, w') ->
  files w' = files w /\ stdout w' = stdout w /\ stderr w' = stderr w /\
  format_calls w' = format_calls w /\ rollovers w' = rollovers w /\
  loggerDict w' = loggerDict w.
Proof. unfold Logger.new_formatter, fresh. by intros [= <- <-]. Qed.

Lemma open_files path w1 w2 :
  files w1 = files w2 ->
  files (handlers._open path w1) = files (handlers._open path w2).
Proof. intros H. unfold handlers._open. rewrite H. by destruct (files w2 !! path). Qed.

Lemma open_streams path w :
  stdout (handlers._open path w) = stdout w /\ stderr (handlers._open path w) = stderr w /\
  format_calls (handlers._open path w) = format_calls w /\
  rollovers (handlers._open path w) = rollovers w.
Proof. unfold handlers._open. by destruct (files w !! path). Qed.

Lemma getLogger_frame n w lg wl :
  handlers.getLogger n w = (lg, wl) ->
  files wl = files w /\ stdout wl = stdout w /\ stderr wl = stderr w /\
  format_calls wl = format_calls w /\ rollovers wl = rollovers w.
Proof.
  unfold handlers.getLogger. destruct n as [n|]; [|by intros [= <- <-]].
  destruct (loggerDict w !! n); by intros [= <- <-].
Qed.

(** The logger [getLogger] returns exists afterwards: it is the logger of
    that name if there was one, and a new one without handlers if not; the
    other loggers stay. *)
Lemma getLogger_lookup n w lg wl :
  handlers.getLogger n w = (lg, wl) ->
  is_Some (loggerDict w !! ("root" : str)) ->
  (exists l, loggerDict wl !! lg = Some l /\
             match loggerDict w !! lg with
             | Some l0 => l = l0
             | None => l_handlers l = []
             end) /\
  forall other, other <> lg -> loggerDict wl !! other = loggerDict w !! other.
Proof.
  unfold handlers.getLogger. destruct n as [n|].
  - destruct (loggerDict w !! n) as [l|] eqn:E; intros [= <- <-] _.
    + split; [|done]. exists l. by rewrite E.
    + split.
      * eexists. cbn. rewrite lookup_insert_eq. split; [done|]. by rewrite E.
      * intros other Ho. cbn. by rewrite lookup_insert_ne.
  - intros H [l Hl].
    assert (lg = ("root" : str) /\ wl = w) as [-> ->] by (by injection H).
    split; [|done]. exists l. by rewrite Hl.
Qed.

(** The world before the logger is looked up. *)
Lemma init_frame env a w self w' :
  Logger.__init__ env a w = inr (self, w') ->
  files w' = files (if Logger.Args.delay a then w else handlers._open (Logger._file self) w) /\
  stdout w' = stdout w /\ stderr w' = stderr w /\
  format_calls w' = format_calls w /\ rollovers w' = rollovers w.
Proof.
  intros (wf & ws & c & wh & wl & L & E1 & E2 & E3 & E4 & E5 & E6 & _ & ->)%init_inv.
  eapply Neo_frame in E1 as (A1 & A2 & A3 & A4 & A5 & A6);
    [|by intros o1 w1 H%new_formatter_frame].
  assert (B : files ws = files wf /\ stdout ws = stdout wf /\ stderr ws = stderr wf /\
              format_calls ws = format_calls wf /\ rollovers ws = rollovers wf /\
              loggerDict ws = loggerDict wf).
  { destruct (Logger.Args.colored a).
    - eapply Neo_frame in E2; [done|]. by intros o1 w1 H%new_handler_frame.
    - by apply new_handler_frame in E2. }
  destruct B as (B1 & B2 & B3 & B4 & B5 & B6).
  apply new_handler_frame in E4 as (C1 & C2 & C3 & C4 & C5 & C6).
  apply getLogger_frame in E5 as (D1 & D2 & D3 & D4 & D5).
  cbn in D1, D2, D3, D4, D5. cbn.
  rewrite D1, D2, D3, D4, D5, C1, C2, C3, C4, C5.
  destruct (Logger.Args.delay a).
  - cbn. by rewrite B1, B2, B3, B4, B5, A1, A2, A3, A4, A5.
  - destruct (open_streams (Logger._file self)
                (handlers.setFormatter (Logger.stream self) (Logger.formatter self) ws))
      as (O1 & O2 & O3 & O4).
    destruct (open_streams (Logger._file self) w) as (P1 & P2 & P3 & P4).
    rewrite O1, O2, O3, O4. cbn.
    rewrite B2, B3, B4, B5, A2, A3, A4, A5. split; [|done].
    apply open_files. cbn. by rewrite B1, A1.
Qed.

(** The logger after the construction, from the logger of that name
    before it ([None] for a new one). *)
Lemma init_logger env a w self w' :
  Logger.__init__ env a w = inr (self, w') ->
  is_Some (loggerDict w !! ("root" : str)) ->
  exists L l,
    handlers._checkLevel (Logger.level_of a) = inr L /\
    loggerDict w' !! Logger.logger self = Some l /\
    l_level l = L /\
    (let before := match loggerDict w !! Logger.logger self with
                   | Some l0 => l_handlers l0
                   | None => []
                   end in
     let with_file := if existsb (Nat.eqb (Logger.file self)) before
                      then before else before ++ [Logger.file self] in
     l_handlers l = if existsb (Nat.eqb (Logger.stream self)) with_file
                    then with_file else with_file ++ [Logger.stream self]) /\
    (forall other, other <> Logger.logger self ->
                   loggerDict w' !! other = loggerDict w !! other) /\
    forall l0, loggerDict w !! Logger.logger self = Some l0 ->
               l_disabled l = l_disabled l0 /\ l_propagate l = l_propagate l0.
Proof.
  intros E Hroot. pose proof (init_level_of _ _ _ _ _ E) as Hlev.
  apply init_inv in E as (wf & ws & c & wh & wl & L & E1 & E2 & E3 & E4 & E5 & E6 & _ & ->).
  eapply Neo_frame in E1 as (_ & _ & _ & _ & _ & A6);
    [|by intros o1 w1 H%new_formatter_frame].
  assert (B6 : loggerDict ws = loggerDict wf).
  { destruct (Logger.Args.colored a).
    - eapply Neo_frame in E2; [by destruct E2 as (_ & _ & _ & _ & _ & ?)|].
      by intros o1 w1 H%new_handler_frame.
    - by apply new_handler_frame in E2 as (_ & _ & _ & _ & _ & ?). }
  apply new_handler_frame in E4 as (_ & _ & _ & _ & _ & C6).
  assert (Hsame : loggerDict
                    (handlers.setFormatter (Logger.file self) (Logger.formatter self) wh)
                  = loggerDict w).
  { cbn. rewrite C6. destruct (Logger.Args.delay a).
    - cbn. by rewrite B6.
    - destruct (open_frame (Logger._file self)
                  (handlers.setFormatter (Logger.stream self) (Logger.formatter self) ws))
        as (_ & _ & _ & _ & O & _).
      rewrite O. cbn. by rewrite B6. }
  apply getLogger_lookup in E5 as [(l & Hl & Hbefore) Hother]; [|by rewrite Hsame].
  rewrite Hsame in Hbefore, Hother.
  exists L. eexists. rewrite <- Hlev. split; [done|].
  cbn. rewrite !lookup_alter_eq, Hl. cbn. split; [done|]. split; [done|].
  split; [|split].
  - destruct (loggerDict w !! Logger.logger self) as [l0|]; [by subst l0|].
    by rewrite Hbefore.
  - intros other Ho. rewrite !lookup_alter_ne by done. by apply Hother.
  - intros l0 Hl0. rewrite Hl0 in Hbefore. by subst l0.
Qed.

(** ** What the constructor rejects *)





(** ** What the constructor sets up *)

(** X11: the level of the underlying logger after the construction: [DEBUG]
    without a level (none, 0 or the empty string), the number that was
    passed, or the number of the name that was passed. *)
Theorem init_sets_level env a w self w' :
  Logger.__init__ env a w = inr (self, w') ->
  is_Some (loggerDict w !! ("root" : str)) ->
  exists l,
    loggerDict w' !! Logger.logger self = Some l /\
    match Logger.Args.level a with
    | Some (inl n) => l_level l = if (n =? 0)%Z then logging.DEBUG else n
    | Some (inr s) => if Py.bool s then handlers._nameToLevel !! s = Some (l_level l)
                      else l_level l = logging.DEBUG
    | None => l_level l = logging.DEBUG
    end.
Proof.
  intros E Hroot.
  destruct (init_logger _ _ _ _ _ E Hroot) as (L & l & HL & Hl & <- & _).
  exists l. split; [done|]. rewrite checkLevel_level_of in HL.
  destruct (Logger.Args.level a) as [[n|s]|].
  - destruct (n =? 0)%Z; [congruence|].
    destruct (handlers._levelToName !! n); [congruence|done].
  - destruct (Py.bool s); [|congruence].
    destruct (handlers._nameToLevel !! s); [congruence|done].
  - congruence.
Qed.

Lemma init_sets_level_witness :
  exists self w',
    Logger.__init__ posix_env error_args initial_world = inr (self, w') /\
    exists l, loggerDict w' !! Logger.logger self = Some l /\
              handlers._nameToLevel !! ("ERROR" : str) = Some (l_level l).
Proof.
  constructed_by E.
  apply (init_sets_level posix_env error_args initial_world self w' E).
  vm_compute. eexists. reflexivity.
Defined.

(** X12: the file and the console handler are attached to the logger,
    behind the handlers it had, and the other loggers are left alone. *)
Theorem init_attaches_handlers env a w self w' :
  Logger.__init__ env a w = inr (self, w') ->
  is_Some (loggerDict w !! ("root" : str)) ->
  exists l,
    loggerDict w' !! Logger.logger self = Some l /\
    In (Logger.file self) (l_handlers l) /\
    In (Logger.stream self) (l_handlers l) /\
    (forall l0, loggerDict w !! Logger.logger self = Some l0 ->
                exists more, l_handlers l = l_handlers l0 ++ more) /\
    forall other, other <> Logger.logger self ->
                  loggerDict w' !! other = loggerDict w !! other.
Proof.
  intros E Hroot.
  destruct (init_logger _ _ _ _ _ E Hroot) as (L & l & _ & Hl & _ & Hh & Hother & _).
  exists l. split; [done|]. cbn zeta in Hh.
  set (before := match loggerDict w !! Logger.logger self with
                 | Some l0 => l_handlers l0
                 | None => []
                 end) in Hh.
  set (with_file := if existsb (Nat.eqb (Logger.file self)) before
                    then before else before ++ [Logger.file self]) in Hh.
  assert (Hadd : forall o hs, In o (if existsb (Nat.eqb o) hs then hs else hs ++ [o])).
  { intros o hs. destruct (existsb (Nat.eqb o) hs) eqn:Ex.
    - apply existsb_exists in Ex as (x & Hx & ->%Nat.eqb_eq). done.
    - apply in_or_app. right. by left. }
  assert (Hpre : forall o hs, exists more,
             (if existsb (Nat.eqb o) hs then hs else hs ++ [o]) = hs ++ more).
  { intros o hs. destruct (existsb (Nat.eqb o) hs).
    - exists []. by rewrite app_nil_r.
    - by exists [o]. }
  assert (Hfile : In (Logger.file self) with_file) by apply Hadd.
  destruct (Hpre (Logger.file self) before) as [m1 Hm1]. fold with_file in Hm1.
  destruct (Hpre (Logger.stream self) with_file) as [m2 Hm2]. rewrite <- Hh in Hm2.
  split; [|split; [|split; [|done]]].
  - rewrite Hm2. apply in_or_app. by left.
  - rewrite Hh. apply Hadd.
  - intros l0 Hl0. subst before. rewrite Hl0 in Hm1.
    exists (m1 ++ m2). by rewrite Hm2, Hm1, app_assoc.
Qed.

Lemma init_attaches_handlers_witness :
  exists self w',
    Logger.__init__ posix_env Logger.Args.defaults initial_world = inr (self, w') /\
    exists l,
      loggerDict w' !! Logger.logger self = Some l /\
      In (Logger.file self) (l_handlers l) /\
      In (Logger.stream self) (l_handlers l) /\
      (forall l0, loggerDict initial_world !! Logger.logger self = Some l0 ->
                  exists more, l_handlers l = l_handlers l0 ++ more) /\
      forall other, other <> Logger.logger self ->
                    loggerDict w' !! other = loggerDict initial_world !! other.
Proof.
  constructed_by E.
  apply (init_attaches_handlers posix_env Logger.Args.defaults initial_world self w' E).
  vm_compute. eexists. reflexivity.
Defined.

(** X13: the constructor opens the log file for appending: no file loses
    its content, a missing log file is created empty unless [delay] is set,
    and nothing is printed. *)
Theorem init_keeps_files env a w self w' :
  Logger.__init__ env a w = inr (self, w') ->
  (forall p c, files w !! p = Some c -> files w' !! p = Some c) /\
  (forall p, p <> Logger._file self -> files w' !! p = files w !! p) /\
  (Logger.Args.delay a = false -> files w !! Logger._file self = None ->
   files w' !! Logger._file self = Some []) /\
  (Logger.Args.delay a = true -> files w' = files w) /\
  stdout w' = stdout w /\ stderr w' = stderr w.
Proof.
  intros (Hf & Ho & He & _)%init_frame. rewrite Hf.
  split; [|split; [|split; [|split; [|done]]]].
  - intros p c Hp. destruct (Logger.Args.delay a); [done|].
    unfold handlers._open. destruct (files w !! Logger._file self) eqn:E; [done|].
    cbn. rewrite lookup_insert_ne; [done|]. intros <-. congruence.
  - intros p Hp. destruct (Logger.Args.delay a); [done|].
    unfold handlers._open. destruct (files w !! Logger._file self) eqn:E; [done|].
    cbn. by rewrite lookup_insert_ne.
  - intros -> E. unfold handlers._open. rewrite E. cbn. by rewrite lookup_insert_eq.
  - by intros ->.
Qed.

Lemma init_keeps_files_witness :
  exists self w',
    Logger.__init__ posix_env Logger.Args.defaults initial_world = inr (self, w') /\
    (forall p c, files initial_world !! p = Some c -> files w' !! p = Some c) /\
    (forall p, p <> Logger._file self -> files w' !! p = files initial_world !! p) /\
    (Logger.Args.delay Logger.Args.defaults = false ->
     files initial_world !! Logger._file self = None ->
     files w' !! Logger._file self = Some []) /\
    (Logger.Args.delay Logger.Args.defaults = true -> files w' = files initial_world) /\
    stdout w' = stdout initial_world /\ stderr w' = stderr initial_world.
Proof.
  constructed_by E.
  exact (init_keeps_files posix_env Logger.Args.defaults initial_world self w' E).
Defined.

(** ** The representation *)

(** X14: the level [__repr__] shows is the converted one: the number for a
    level that was passed as a name, the name for a level that was passed
    as a number, [DEBUG] without a level; the file is the log file in the
    directory of the logs. *)
Theorem repr_shows_converted_level env a w self w' :
  Logger.__init__ env a w = inr (self, w') ->
  exists shown,
    Logger.__repr__ self =
      "<KaamikiLogger: " ++ Logger.logger self ++ " - [" ++ shown ++ "] - "
      ++ os_path_join (Logger.path self) (Logger.name self ++ ".log") ++ ">" /\
    match Logger.Args.level a with
    | Some (inl n) =>
        if (n =? 0)%Z then shown = "DEBUG" else handlers._levelToName !! n = Some shown
    | Some (inr s) =>
        if Py.bool s then exists n, handlers._nameToLevel !! s = Some n /\ shown = Py.dec n
        else shown = "DEBUG"
    | None => shown = "DEBUG"
    end.
Proof.
  intros E. pose proof (init_level_of _ _ _ _ _ E) as Hlev.
  pose proof (init_file_name _ _ _ _ _ E) as Hfile.
  apply init_inv in E as (_ & _ & _ & _ & _ & L & _ & _ & _ & _ & _ & HL & _).
  rewrite Hlev, checkLevel_level_of in HL.
  exists (Logger.level_str (Logger.level self)). split.
  { unfold Logger.__repr__. by rewrite Hfile. }
  rewrite Hlev. unfold Logger.level_of, Logger.level_truthy.
  destruct (Logger.Args.level a) as [[n|s]|]; [| |done].
  - destruct (n =? 0)%Z; [done|]. cbn [negb default from_option]. unfold id. cbn [handlers.getLevelName].
    by destruct (handlers._levelToName !! n).
  - destruct (Py.bool s); [|done]. cbn [default from_option]. unfold id. cbn [handlers.getLevelName].
    destruct (handlers._nameToLevel !! s) as [n|]; [|done]. by exists n.
Qed.

Lemma repr_shows_converted_level_witness :
  exists self w',
    Logger.__init__ posix_env error_args initial_world = inr (self, w') /\
    exists shown,
      Logger.__repr__ self =
        "<KaamikiLogger: " ++ Logger.logger self ++ " - [" ++ shown ++ "] - "
        ++ os_path_join (Logger.path self) (Logger.name self ++ ".log") ++ ">" /\
      exists n, handlers._nameToLevel !! ("ERROR" : str) = Some n /\ shown = Py.dec n.
Proof.
  constructed_by E.
  exact (repr_shows_converted_level posix_env error_args initial_world self w' E).
Defined.

(** ** Handlers: a rendering and its sink *)

Lemma Handler_format_frame env h r w1 w2 :
  formatters w1 = formatters w2 ->
  handlers.Handler_format env h r w1 = handlers.Handler_format env h r w2.
Proof. intros H. unfold handlers.Handler_format. by rewrite H. Qed.


(** [self.format(record)] of a handler that is not the coloured one. *)
Lemma format_plain env h r w :
  h_class h <> KaamikiStreamHandler ->
  handlers.format env h r w =
    (handlers.Handler_format env h r w, set_format_calls (S (format_calls w)) w).
Proof.
  intros Hc. unfold handlers.format. f_equal.
  rewrite (Handler_format_frame env h r _ w) by done.
  by destruct (h_class h).
Qed.

Lemma format_failed env h r w :
  handlers.Handler_format env h r w = None ->
  handlers.format env h r w = (None, set_format_calls (S (format_calls w)) w).
Proof.
  intros H. unfold handlers.format. f_equal.
  rewrite (Handler_format_frame env h r _ w) by done.
  destruct (h_class h); try done.
  unfold _StreamHandler.format.
  rewrite (Handler_format_frame env h r _ w) by done. by rewrite H.
Qed.

Lemma Handler_leaves_frame env h r w1 w2 :
  formatters w1 = formatters w2 ->
  handlers.Handler_leaves env h r w1 = handlers.Handler_leaves env h r w2.
Proof. intros H. unfold handlers.Handler_leaves. by rewrite H. Qed.

(** What a rendering that returns hands on is what the call leaves on the
    record. *)
Lemma Handler_format_leaves env h r w s r' :
  handlers.Handler_format env h r w = Some (s, r') ->
  handlers.Handler_leaves env h r w = r'.
Proof.
  unfold handlers.Handler_format, handlers.Handler_leaves.
  assert (Hstd : forall fm x, logging.Formatter_format env fm r = Some x ->
                              logging.Formatter_format_leaves env fm r = snd x).
  { intros fm x. unfold logging.Formatter_format, logging.Formatter_format_leaves.
    destruct (logging.formatMessage _ _); [|done]. by intros [= <-]. }
  destruct (h_formatter h) as [f|].
  - destruct (formatters w !! f) as [fmtr|]; [|done]. cbn [mbind option_bind].
    unfold _Formatter.format, _Formatter.format_leaves.
    destruct (_Formatter.make_formatter env fmtr r) as [fm|]; [|done].
    cbn [mbind option_bind].
    destruct (logging.Formatter_format env fm r) as [[log r1]|] eqn:E; [|done].
    cbn [mbind option_bind]. rewrite (Hstd _ _ E).
    destruct (_Formatter.exception_summary fmtr log r1); [|done]. by intros [= _ <-].
  - destruct (logging.Formatter__init__ None None) as [fm|]; [|done].
    cbn [mbind option_bind]. intros E. by rewrite (Hstd _ _ E).
Qed.

Lemma StreamHandler_emit_failed env h k r w :
  handlers.Handler_format env h r w = None ->
  handlers.StreamHandler_emit env h k r w =
    (handlers.Handler_leaves env h r w,
     handlers.handleError env (handlers.Handler_leaves env h r w)
       (set_format_calls (S (format_calls w)) w)).
Proof.
  intros H. unfold handlers.StreamHandler_emit. rewrite format_failed by done.
  by rewrite (Handler_leaves_frame _ _ _ _ w).
Qed.

Lemma open_formatters path w : formatters (handlers._open path w) = formatters w.
Proof. unfold handlers._open. by destruct (files w !! path). Qed.

Lemma open_existing path w c :
  files w !! path = Some c -> handlers._open path w = w.
Proof. intros H. unfold handlers._open. by rewrite H. Qed.

Lemma open_lookup path w :
  files (handlers._open path w) !! path = Some (default [] (files w !! path)).
Proof.
  unfold handlers._open. destruct (files w !! path) eqn:E; [by rewrite E|].
  cbn. by rewrite lookup_insert_eq.
Qed.

Lemma open_other path w p :
  p <> path -> files (handlers._open path w) !! p = files w !! p.
Proof.
  intros H. unfold handlers._open. destruct (files w !! path); [done|].
  cbn. by rewrite lookup_insert_ne.
Qed.

Lemma open_keeps path w p c :
  files w !! p = Some c -> files (handlers._open path w) !! p = Some c.
Proof.
  intros H. destruct (decide (p = path)) as [->|Hne].
  - by rewrite open_lookup, H.
  - by rewrite open_other.
Qed.

(** A [_Formatter] cannot render a record whose error information has no
    traceback. *)
Lemma Handler_format_unraised env h f fmtr r ei w :
  h_formatter h = Some f ->
  formatters w !! f = Some fmtr ->
  logging.exc_info r = Some ei ->
  logging.tb_lineno ei = None ->
  logging.print_exception ei <> [] ->
  handlers.Handler_format env h r w = None.
Proof.
  intros Hf Hfm Hei Hn Hne. unfold handlers.Handler_format. rewrite Hf, Hfm.
  cbn [mbind option_bind]. unfold _Formatter.format.
  destruct (_Formatter.make_formatter env fmtr r) as [fm|]; [|done]. cbn [mbind option_bind].
  destruct (logging.Formatter_format env fm r) as [[log r1]|] eqn:E; [|done].
  cbn [mbind option_bind].
  apply Formatter_format_record in E. subst r1.
  unfold _Formatter.exception_summary.
  rewrite (cached_text env fm r ei) by done.
  destruct (cached_fields env fm r) as (-> & _). rewrite Hei. cbn [mbind option_bind].
  by rewrite Hn.
Qed.

(** The record a handler leaves when the template was filled and the
    summary then failed. *)
Lemma Handler_leaves_filled env h f fmtr r w fm L :
  h_formatter h = Some f ->
  formatters w !! f = Some fmtr ->
  _Formatter.make_formatter env fmtr r = Some fm ->
  logging.formatMessage fm (logging.prepare env fm r) = Some L ->
  handlers.Handler_leaves env h r w = logging.cache_exc_text (logging.prepare env fm r).
Proof.
  intros Hf Hfm Hmk HL. unfold handlers.Handler_leaves. rewrite Hf, Hfm.
  unfold _Formatter.format_leaves. rewrite Hmk.
  unfold logging.Formatter_format_leaves. by rewrite HL.
Qed.

(** X15: when a console, file or size-based rotating handler whose formatter
    is a [_Formatter] handles a record whose error information has no
    traceback (line 124 then reads [tb_lineno] of [None]), the record is
    lost without harm: the handler reports on [sys.stderr], beginning with
    the line [--- Logging error ---], no file loses or gains a character,
    nothing reaches [sys.stdout] and no rollover takes place.  The record is
    handed on with what line 117 has set on it by then: for a template that
    could be filled, the message, the time and the cached text of the
    exception. *)
Theorem handle_failed_rendering env h f fmtr r ei w :
  (forall base when interval backupCount delay utc atTime,
     h_class h <> TimedRotatingFileHandler base when interval backupCount delay utc atTime) ->
  h_formatter h = Some f ->
  formatters w !! f = Some fmtr ->
  logging.exc_info r = Some ei ->
  logging.tb_lineno ei = None ->
  logging.print_exception ei <> [] ->
  let w' := snd (handlers.handle env h r w) in
  (exists report, stderr w' = stderr w ++ "--- Logging error ---" ++ [LF] ++ report) /\
  stdout w' = stdout w /\
  rollovers w' = rollovers w /\
  (forall p c, files w !! p = Some c -> files w' !! p = Some c) /\
  (forall p, files w' !! p = None \/ files w' !! p = Some [] \/ files w' !! p = files w !! p) /\
  (forall fm L,
     _Formatter.make_formatter env fmtr r = Some fm ->
     logging.formatMessage fm (logging.prepare env fm r) = Some L ->
     fst (handlers.handle env h r w) = logging.cache_exc_text (logging.prepare env fm r)).
Proof.
  intros Hc Hfo Hfm Hei Hn Hne.
  pose proof (Handler_format_unraised env h f fmtr r ei w Hfo Hfm Hei Hn Hne) as Hf.
  assert (Hrec : forall wx fm L,
             formatters wx = formatters w ->
             _Formatter.make_formatter env fmtr r = Some fm ->
             logging.formatMessage fm (logging.prepare env fm r) = Some L ->
             handlers.Handler_leaves env h r wx
             = logging.cache_exc_text (logging.prepare env fm r)).
  { intros wx fm L Hwx Hmk HL. rewrite (Handler_leaves_frame _ _ _ _ w) by done.
    by eapply Handler_leaves_filled. }
  unfold handlers.handle.
  destruct (h_class h) as [s| |base delay|base maxBytes backupCount delay|] eqn:Ec.
  - rewrite StreamHandler_emit_failed by done. cbn.
    split; [by eexists|]. repeat split; eauto.
  - rewrite StreamHandler_emit_failed by done. cbn.
    split; [by eexists|]. repeat split; eauto.
  - unfold handlers.FileHandler_emit.
    rewrite StreamHandler_emit_failed
      by (by rewrite (Handler_format_frame _ _ _ _ w) by apply open_formatters).
    destruct (open_streams base w) as (O1 & O2 & O3 & O4).
    cbn. rewrite O1, O2, O4. split; [by eexists|]. repeat split; try done.
    + intros p c. apply open_keeps.
    + intros p. destruct (decide (p = base)) as [->|Hne'].
      * rewrite open_lookup. destruct (files w !! base); cbn; eauto.
      * rewrite open_other by done. eauto.
    + intros fm L. apply Hrec, open_formatters.
  - unfold handlers.RotatingFileHandler_emit, handlers.shouldRollover.
    assert (Hf' : handlers.Handler_format env h r (handlers._open base w) = None)
      by (by rewrite (Handler_format_frame _ _ _ _ w) by apply open_formatters).
    destruct (open_streams base w) as (O1 & O2 & O3 & O4).
    assert (Hfiles : (forall p c, files w !! p = Some c ->
                                  files (handlers._open base w) !! p = Some c) /\
                     forall p, files (handlers._open base w) !! p = None \/
                               files (handlers._open base w) !! p = Some [] \/
                               files (handlers._open base w) !! p = files w !! p).
    { split; [intros p c; apply open_keeps|].
      intros p. destruct (decide (p = base)) as [->|Hne'].
      - rewrite open_lookup. destruct (files w !! base); cbn; eauto.
      - rewrite open_other by done. eauto. }
    destruct Hfiles as (Hk1 & Hk2).
    destruct (0 <? maxBytes)%Z.
    + rewrite format_failed by done. cbn. rewrite O1, O2, O4.
      split; [by eexists|]. repeat split; try done.
      intros fm L. apply Hrec. cbn. apply open_formatters.
    + unfold handlers.FileHandler_emit.
      rewrite (open_existing base (handlers._open base w) _ (open_lookup base w)).
      rewrite StreamHandler_emit_failed by done. cbn. rewrite O1, O2, O4.
      split; [by eexists|]. repeat split; try done.
      intros fm L. apply Hrec, open_formatters.
  - by edestruct Hc.
Qed.

Lemma handle_failed_rendering_witness :
  let w' := snd (handlers.handle posix_env (sample_file_handler 64) unraised_record
                   (sample_world 64)) in
  (exists report,
     stderr w' = stderr (sample_world 64) ++ "--- Logging error ---" ++ [LF] ++ report) /\
  stdout w' = stdout (sample_world 64) /\
  rollovers w' = rollovers (sample_world 64) /\
  (forall p c, files (sample_world 64) !! p = Some c -> files w' !! p = Some c) /\
  (forall p, files w' !! p = None \/ files w' !! p = Some [] \/
             files w' !! p = files (sample_world 64) !! p) /\
  (forall fm L,
     _Formatter.make_formatter posix_env default_formatter unraised_record = Some fm ->
     logging.formatMessage fm (logging.prepare posix_env fm unraised_record) = Some L ->
     fst (handlers.handle posix_env (sample_file_handler 64) unraised_record (sample_world 64))
     = logging.cache_exc_text (logging.prepare posix_env fm unraised_record)).
Proof.
  apply (handle_failed_rendering posix_env (sample_file_handler 64) 0 default_formatter
           unraised_record unraised_error (sample_world 64)).
  - intros. discriminate.
  - reflexivity.
  - vm_compute. reflexivity.
  - reflexivity.
  - reflexivity.
  - discriminate.
Defined.

(** The record of such a failure, on the rotating file handler: the message,
    the time and the text of the exception are on it, and the report is on
    [sys.stderr]. *)
Example failed_rendering_sets_attributes :
  let out := handlers.handle posix_env (sample_file_handler 64) unraised_record
               (sample_world 64) in
  logging.message (fst out) = Some ("bad header" : str) /\
  logging.asctime (fst out) = Some ("Jan 01, 2020 10:00:00" : str) /\
  logging.exc_text (fst out) = Some ("ValueError: bad header" : str) /\
  logging.exc_text unraised_record = None /\
  stderr (snd out)
  = "--- Logging error ---" ++ [LF] ++ "Traceback (most recent call last):" ++ [LF].
Proof. repeat split; vm_compute; reflexivity. Qed.

(** ** Size-based rotation: the files of a handler *)

Lemma to_int_not_nil n :
  Z.to_int n <> Decimal.Pos Decimal.Nil /\ Z.to_int n <> Decimal.Neg Decimal.Nil.
Proof.
  split; intros H; pose proof (DecimalZ.of_to n) as E; rewrite H in E; cbn in E;
    subst n; vm_compute in H; discriminate H.
Qed.

Lemma list_ascii_of_string_inj s t :
  list_ascii_of_string s = list_ascii_of_string t -> s = t.
Proof.
  intros H. apply (f_equal string_of_list_ascii) in H.
  by rewrite !string_of_list_ascii_of_string in H.
Qed.

Lemma dec_inj n m : Py.dec n = Py.dec m -> n = m.
Proof.
  unfold Py.dec. intros H%list_ascii_of_string_inj.
  apply DecimalZ.to_int_inj.
  destruct (to_int_not_nil n) as [N1 N2], (to_int_not_nil m) as [M1 M2].
  pose proof (NilZero.isi _ N1 N2) as E1. pose proof (NilZero.isi _ M1 M2) as E2.
  rewrite H in E1. congruence.
Qed.

Lemma backup_name_inj base i j :
  base ++ "." ++ Py.dec i = base ++ "." ++ Py.dec j -> i = j.
Proof. intros H%app_inv_head. apply dec_inj. by injection H. Qed.

Lemma backup_name_not_base base x : base ++ "." ++ x <> base.
Proof.
  intros H. apply (f_equal length) in H. rewrite length_app in H. simpl in H. lia.
Qed.

Lemma move_other src dst fs p :
  p <> src -> p <> dst -> handlers.move src dst fs !! p = fs !! p.
Proof.
  intros H1 H2. unfold handlers.move. destruct (fs !! src); [|done].
  by rewrite lookup_insert_ne, !lookup_delete_ne.
Qed.

Lemma move_dst src dst fs c :
  fs !! src = Some c -> handlers.move src dst fs !! dst = Some c.
Proof. intros H. unfold handlers.move. rewrite H. apply lookup_insert_eq. Qed.

Lemma shift_backups_other base k fs p :
  (forall i, (1 <= i <= Z.of_nat k + 1)%Z -> p <> base ++ "." ++ Py.dec i) ->
  handlers.shift_backups base k fs !! p = fs !! p.
Proof.
  revert fs. induction k as [|k IH]; intros fs Hp; [done|].
  cbn [handlers.shift_backups]. rewrite IH by (intros i Hi; apply Hp; lia).
  apply move_other; apply Hp; lia.
Qed.

Lemma shift_backups_shifts base k fs i c :
  1 <= i <= k ->
  fs !! (base ++ "." ++ Py.dec (Z.of_nat i)) = Some c ->
  handlers.shift_backups base k fs !! (base ++ "." ++ Py.dec (Z.of_nat i + 1)) = Some c.
Proof.
  revert fs. induction k as [|k IH]; intros fs Hi Hc; [lia|].
  cbn [handlers.shift_backups].
  destruct (decide (i = S k)) as [->|Hne].
  - rewrite shift_backups_other.
    + by apply move_dst.
    + intros j Hj E%backup_name_inj. lia.
  - apply IH; [lia|]. rewrite move_other; [done| |].
    + intros E%backup_name_inj. lia.
    + intros E%backup_name_inj. lia.
Qed.

Lemma first_backup base : base ++ ".1" = base ++ "." ++ Py.dec 1.
Proof. reflexivity. Qed.

(** The files after [doRollover] with backups. *)
Lemma doRollover_files base backupCount delay w :
  (0 < backupCount)%Z ->
  let fs := delete (base ++ ".1")
              (handlers.shift_backups base (Z.to_nat (backupCount - 1)) (files w)) in
  files (handlers.doRollover base backupCount delay w) =
  files ((if delay then id else handlers._open base)
           (set_files (match fs !! base with
                       | Some c => <[base ++ ".1" := c]> (delete base fs)
                       | None => fs
                       end) w)).
Proof.
  intros H%Z.ltb_lt. unfold handlers.doRollover. cbn [files set_rollovers]. rewrite H.
  destruct delay; cbn zeta; [done|]. by apply open_files.
Qed.

(** X16: a rollover touches the log file and its backups [.1] to
    [.backupCount] only: no other file is created, changed or removed, so
    no more than [backupCount] backups come into being. *)
Theorem doRollover_touches_backups_only base backupCount delay w p :
  p <> base ->
  (forall i, (1 <= i <= backupCount)%Z -> p <> base ++ "." ++ Py.dec i) ->
  files (handlers.doRollover base backupCount delay w) !! p = files w !! p.
Proof.
  intros Hb Hp. unfold handlers.doRollover. cbn [files set_rollovers].
  set (fs := if (0 <? backupCount)%Z then _ else _).
  assert (Hfs : fs !! p = files w !! p).
  { subst fs. destruct (0 <? backupCount)%Z eqn:E; [|done]. apply Z.ltb_lt in E.
    assert (H1 : p <> base ++ ".1") by (rewrite first_backup; apply Hp; lia).
    assert (Hs : delete (base ++ ".1")
                   (handlers.shift_backups base (Z.to_nat (backupCount - 1)) (files w)) !! p
                 = files w !! p).
    { rewrite lookup_delete_ne by done. apply shift_backups_other.
      intros i Hi. apply Hp. lia. }
    destruct (_ !! base).
    - by rewrite lookup_insert_ne, lookup_delete_ne.
    - done. }
  destruct delay; [done|]. by rewrite open_other.
Qed.

Lemma doRollover_touches_backups_only_witness :
  files (handlers.doRollover sample_file 5 false (sample_world 64))
    !! (sample_file ++ "." ++ Py.dec 6)
  = files (sample_world 64) !! (sample_file ++ "." ++ Py.dec 6).
Proof.
  apply (doRollover_touches_backups_only sample_file 5 false (sample_world 64)).
  - apply backup_name_not_base.
  - intros i Hi E%backup_name_inj. lia.
Defined.

(** The log file after a rollover with backups: its content is in [.1], and
    the log file is empty, or absent until the next record when [delay] is
    set. *)
Lemma doRollover_base base backupCount delay w :
  (0 < backupCount)%Z ->
  let w' := handlers.doRollover base backupCount delay w in
  (forall c, files w !! base = Some c -> files w' !! (base ++ ".1") = Some c) /\
  files w' !! base = (if delay then None else Some []) /\
  rollovers w' = S (rollovers w).
Proof.
  intros Hpos. cbn zeta. rewrite doRollover_files by done. cbn zeta.
  set (k := Z.to_nat (backupCount - 1)).
  set (fs := delete (base ++ ".1") (handlers.shift_backups base k (files w))).
  assert (Hbase : fs !! base = files w !! base).
  { subst fs. rewrite lookup_delete_ne by (rewrite first_backup; apply backup_name_not_base).
    apply shift_backups_other. intros i _ E. symmetry in E. by apply backup_name_not_base in E. }
  assert (Hne : base ++ ".1" <> base) by (rewrite first_backup; apply backup_name_not_base).
  split; [|split].
  - intros c Hc. rewrite Hbase, Hc.
    destruct delay; [cbn; by rewrite lookup_insert_eq|].
    rewrite open_other by done. cbn. by rewrite lookup_insert_eq.
  - destruct delay.
    + cbn. destruct (fs !! base) eqn:E; [|done].
      by rewrite lookup_insert_ne, lookup_delete_eq.
    + rewrite open_lookup. cbn. destruct (fs !! base) eqn:E; [|by rewrite E].
      by rewrite lookup_insert_ne, lookup_delete_eq.
  - unfold handlers.doRollover. destruct delay; [done|].
    match goal with
    | |- rollovers (handlers._open ?b ?x) = _ =>
        destruct (open_streams b x) as (_ & _ & _ & ->)
    end. done.
Qed.

(** X17: a rollover renames the log file to [.1] and every backup [.i]
    below [backupCount] to [.(i+1)]; afterwards the log file is empty, or
    absent until the next record when [delay] is set. *)
Theorem doRollover_shifts base backupCount delay w :
  (0 < backupCount)%Z ->
  let w' := handlers.doRollover base backupCount delay w in
  (forall c, files w !! base = Some c -> files w' !! (base ++ ".1") = Some c) /\
  (forall i c, (1 <= i < backupCount)%Z ->
               files w !! (base ++ "." ++ Py.dec i) = Some c ->
               files w' !! (base ++ "." ++ Py.dec (i + 1)) = Some c) /\
  files w' !! base = (if delay then None else Some []) /\
  rollovers w' = S (rollovers w).
Proof.
  intros Hpos. destruct (doRollover_base base backupCount delay w Hpos) as (B1 & B2 & B3).
  cbn zeta. split; [done|]. split; [|done].
  rewrite doRollover_files by done. cbn zeta.
  set (k := Z.to_nat (backupCount - 1)).
  set (fs := delete (base ++ ".1") (handlers.shift_backups base k (files w))).
  intros i c Hi Hc.
  assert (Hfs : fs !! (base ++ "." ++ Py.dec (i + 1)) = Some c).
  { subst fs. rewrite lookup_delete_ne
      by (rewrite first_backup; intros E%backup_name_inj; lia).
    replace i with (Z.of_nat (Z.to_nat i)) in * by lia.
    apply shift_backups_shifts; [lia|done]. }
  assert (H1 : base ++ "." ++ Py.dec (i + 1) <> base ++ ".1")
    by (rewrite first_backup; intros E%backup_name_inj; lia).
  assert (H2 : base ++ "." ++ Py.dec (i + 1) <> base) by apply backup_name_not_base.
  assert (Hset : match fs !! base with
                 | Some c0 => <[base ++ ".1" := c0]> (delete base fs)
                 | None => fs
                 end !! (base ++ "." ++ Py.dec (i + 1)) = Some c).
  { destruct (fs !! base); [|done]. by rewrite lookup_insert_ne, lookup_delete_ne. }
  destruct delay; [done|]. by rewrite open_other.
Qed.

Lemma doRollover_shifts_witness :
  let w' := handlers.doRollover sample_file 5 false (sample_world 64) in
  (forall c, files (sample_world 64) !! sample_file = Some c ->
             files w' !! (sample_file ++ ".1") = Some c) /\
  (forall i c, (1 <= i < 5)%Z ->
               files (sample_world 64) !! (sample_file ++ "." ++ Py.dec i) = Some c ->
               files w' !! (sample_file ++ "." ++ Py.dec (i + 1)) = Some c) /\
  files w' !! sample_file = Some [] /\
  rollovers w' = S (rollovers (sample_world 64)).
Proof.
  apply (doRollover_shifts sample_file 5 false (sample_world 64)). lia.
Defined.

(** ** Size-based rotation: a record *)









(** The limit is met in bytes: behind 40 characters of two bytes each a
    line of 109 characters rolls the file over at a limit of 171, which
    the characters alone (40 + 109 + 1) do not reach. *)
Example two_byte_characters_roll_over :
  let out := handlers.handle posix_env (sample_file_handler 171) error_record
               two_byte_world in
  files two_byte_world !! sample_file = Some (repeat "233"%char 40) /\
  40 + (length (error_header ++ "disk ERROR") + 1) = 150 /\
  handlers.tell posix_env (repeat "233"%char 40) = 80 /\
  rollovers (snd out) = S (rollovers two_byte_world) /\
  files (snd out) !! (sample_file ++ ".1") = Some (repeat "233"%char 40).
Proof.
  cbv zeta. split; [vm_compute; reflexivity|]. split; [vm_compute; reflexivity|].
  split; [vm_compute; reflexivity|]. split; vm_compute; reflexivity.
Qed.

(** ** The file and the console *)








(** ** The first Logger of a process *)






(** ** More of the constructor *)



(** X23: the log file is named after the logger, with the extension
    [.log]. *)
Theorem init_file_suffix env a w self w' :
  Logger.__init__ env a w = inr (self, w') ->
  exists dir, Logger._file self = dir ++ Logger.name self ++ ".log".
Proof.
  intros ->%init_file_name. unfold os_path_join.
  destruct (Py.startswith _ "/"); [by exists []|].
  destruct (negb _); [by exists []|].
  destruct (Ascii.eqb _ _).
  - by exists (Logger.path self).
  - exists (Logger.path self ++ "/"). by rewrite <- !app_assoc.
Qed.

Lemma init_file_suffix_witness :
  exists self w',
    Logger.__init__ posix_env Logger.Args.defaults initial_world = inr (self, w') /\
    exists dir, Logger._file self = dir ++ Logger.name self ++ ".log".
Proof.
  constructed_by E.
  exact (init_file_suffix posix_env Logger.Args.defaults initial_world self w' E).
Defined.

(** X24: without colour the console handler is a plain [StreamHandler()],
    which writes to [sys.stderr]: the line goes there as the formatter
    renders it, and [sys.stdout] and the files are left alone. *)
Theorem uncoloured_console_is_stderr env a w self w' :
  Logger.__init__ env a w = inr (self, w') ->
  Logger.Args.colored a = false ->
  exists h,
    handlers w' !! Logger.stream self = Some h /\
    h_class h = StreamHandler Stderr /\
    h_formatter h = Some (Logger.formatter self) /\
    forall r s r' w1,
      handlers.Handler_format env h r w1 = Some (s, r') ->
      let w2 := snd (handlers.handle env h r w1) in
      stderr w2 = stderr w1 ++ s ++ [LF] /\ stdout w2 = stdout w1 /\ files w2 = files w1.
Proof.
  intros E Hcol.
  apply init_inv in E as (wf & ws & c & wh & wl & L & E1 & E2 & E3 & E4 & E5 & _ & _ & ->).
  rewrite Hcol in E2.
  apply new_handler_inv in E2 as (Hso & Hn2 & Hh2 & _).
  set (w3 := if Logger.Args.delay a then _ else _) in E4.
  assert (Hw3 : next_id w3 = next_id ws /\
                handlers w3 = alter (fun h => {| h_class := h_class h;
                                                 h_formatter := Some (Logger.formatter self);
                                                 h_level := h_level h |})
                                (Logger.stream self) (handlers ws)).
  { subst w3. destruct (Logger.Args.delay a); [done|].
    match goal with
    | |- context [handlers._open ?b ?x] =>
        destruct (open_frame b x) as (-> & -> & _)
    end. done. }
  destruct Hw3 as (Hn3 & Hh3).
  apply new_handler_inv in E4 as (Hfi & Hn4 & Hh4 & _).
  apply getLogger_inv in E5 as (_ & Hh5 & _).
  cbn in Hh5.
  assert (Hne : Logger.file self <> Logger.stream self) by (rewrite Hfi, Hn3, Hn2, Hso; lia).
  exists {| h_class := StreamHandler Stderr; h_formatter := Some (Logger.formatter self);
            h_level := logging.NOTSET |}.
  split; [|split; [|split]].
  - cbn. rewrite Hh5, Hh4, Hh3, Hh2.
    by rewrite lookup_alter_ne, lookup_insert_ne, lookup_alter_eq, lookup_insert_eq.
  - reflexivity.
  - reflexivity.
  - intros r s r' w1 Hf. cbn zeta. unfold handlers.handle. cbn [h_class].
    unfold handlers.StreamHandler_emit. rewrite format_plain by done. by rewrite Hf.
Qed.

Lemma uncoloured_console_is_stderr_witness :
  exists self w',
    Logger.__init__ posix_env plain_args initial_world = inr (self, w') /\
    exists h,
      handlers w' !! Logger.stream self = Some h /\
      h_class h = StreamHandler Stderr /\
      h_formatter h = Some (Logger.formatter self) /\
      forall r s r' w1,
        handlers.Handler_format posix_env h r w1 = Some (s, r') ->
        let w2 := snd (handlers.handle posix_env h r w1) in
        stderr w2 = stderr w1 ++ s ++ [LF] /\ stdout w2 = stdout w1 /\ files w2 = files w1.
Proof.
  constructed_by E.
  apply (uncoloured_console_is_stderr posix_env plain_args initial_world self w' E).
  reflexivity.
Defined.
